(** * USB keyboard to serial: keycode translation and auto-repeat scheduling

    A shallow embedding of the two variants of the firmware,
    [src/main/keyboard_main.c] (module [Main]) and [src/unnamed/part_000]
    (module [Part000]).  Both share the same translator
    [usb_keycode_to_ascii]; they differ in where the repeat phase counter is
    reset when the held key changes.

    C integers are modelled as [Z] with the wrap-around of their type written
    out; the two lookup tables are the C string literals, character by
    character; the globals of each translation unit form a record that is
    threaded through the report callback and through one iteration of the
    scheduler loop. *)

From Stdlib Require Import ZArith List String Ascii Bool Lia.
Import ListNotations.
Local Open Scope Z_scope.

(** ** C integer types *)

Definition uint8_t (z : Z) : Z := z mod 256.
Definition uint32_t (z : Z) : Z := z mod 2 ^ 32.

(** Conversion of an [int] to the return type [char].  Every value the
    translator produces is below 128, so the signedness of plain [char] never
    comes into play (lemma [usb_keycode_to_ascii_range]). *)
Definition char_of_int (z : Z) : Z := z mod 256.

(** [s[idx]] for a C string literal [s]: the character code at [idx], and the
    terminating NUL at [idx = strlen s]. *)
Definition char_at (s : string) (idx : Z) : Z :=
  match String.get (Z.to_nat idx) s with
  | Some c => Z.of_N (N_of_ascii c)
  | None => 0
  end.

(** The code of a character, to write expected bytes as characters. *)
Definition code (c : ascii) : Z := Z.of_N (N_of_ascii c).

(** ** Translator (identical in both files) *)

(** The literal of [lut_shift]: A to Z, the shifted digit row, then the
    escapes \n \x1B \b \t (codes 10, 27, 8, 9), a space, and the shifted
    punctuation, whose double quote is character 34. *)
Definition lut_shift : string :=
  ("ABCDEFGHIJKLMNOPQRSTUVWXYZ!@#$%^&*()"
   ++ String "010" (String "027" (String "008" (String "009"
        (" _+{}| :" ++ String "034" "~<>?")))))%string.

(** The literal of [lut_plain]: a to z, the digits 1 to 9 and 0, the same
    four escapes, a space, and the punctuation; the C escape for the backslash
    is the single character 92. *)
Definition lut_plain : string :=
  ("abcdefghijklmnopqrstuvwxyz1234567890"
   ++ String "010" (String "027" (String "008" (String "009"
        " -=[]\ ;'`,./"))))%string.

(** [(modifier & mask)] used as a C truth value. *)
Definition bit_set (modifier mask : Z) : bool :=
  negb (Z.land modifier mask =? 0).

Definition usb_keycode_to_ascii (key_code modifier : Z) : Z :=
  if (key_code <? 0x04) || (key_code >? 0x38) then 0
  else
    let shift := bit_set modifier 0x02 || bit_set modifier 0x20 in
    let ctrl := bit_set modifier 0x01 || bit_set modifier 0x10 in
    let idx := uint8_t (key_code - 0x04) in
    if ctrl && (idx <=? 25) then char_of_int (idx + 1)
    else if shift then char_at lut_shift idx else char_at lut_plain idx.

(** What [uart_repeat_send_task] hands to [uart_write_bytes] for a character
    returned by the translator: the byte, unless it is 0, the value that stands
    for no output. *)
Definition sent_byte (ascii_char : Z) : option Z :=
  if negb (ascii_char =? 0) then Some ascii_char else None.

(** ** Configuration constants (identical in both files) *)

Definition KEYPRESS_INTERVAL_MS : Z := 500.
Definition TIMER_INTERVAL_MS : Z := 10.
Definition TICK_COUNT_MAX : Z := KEYPRESS_INTERVAL_MS / TIMER_INTERVAL_MS.

(** [tick_counter++; if (tick_counter >= TICK_COUNT_MAX) tick_counter = 0;]
    on a [uint32_t]. *)
Definition advance (tick_counter : Z) : Z :=
  let t := uint32_t (tick_counter + 1) in
  if t >=? TICK_COUNT_MAX then 0 else t.

(** ** Runs: reports and scheduler ticks *)

(** What happens to the firmware, one event at a time, each applied as a
    whole: a call of the report callback with its buffer and length, or one
    iteration of the scheduler loop (one period of [TIMER_INTERVAL_MS]). *)
Inductive event : Type :=
| Report (report : list Z) (report_len : Z)
| Tick.

(** The bytes written to the UART, with the elapsed time in milliseconds of
    the tick that wrote them; [outs] holds one entry per tick, the first tick
    being at time [t0]. *)
Fixpoint emissions (t0 : Z) (outs : list (option Z)) : list (Z * Z) :=
  match outs with
  | [] => []
  | Some b :: outs' => (t0, b) :: emissions (t0 + TIMER_INTERVAL_MS) outs'
  | None :: outs' => emissions (t0 + TIMER_INTERVAL_MS) outs'
  end.

(** ** Variant 1: [src/main/keyboard_main.c] *)

Module Main.

(** The file's globals, and the function-static [last_key] of the report
    callback. *)
Record state : Type := mkState {
  tick_counter : Z;
  current_key : Z;
  current_mod : Z;
  last_key : Z
}.

Definition init : state := mkState 0 0 0 0.

Definition set_tick_counter (t : Z) (s : state) : state :=
  mkState t (current_key s) (current_mod s) (last_key s).

(** One iteration of the [while (1)] loop of [uart_repeat_send_task], up to
    [vTaskDelay]: the new globals and the byte written to the UART, if
    any. *)
Definition loop_body (s : state) : state * option Z :=
  if negb (current_key s =? 0) then
    let out :=
      if tick_counter s =? 0
      then sent_byte (usb_keycode_to_ascii (current_key s) (current_mod s))
      else None in
    (set_tick_counter (advance (tick_counter s)) s, out)
  else (s, None).

Definition hid_host_keyboard_report_callback
    (report : list Z) (report_len : Z) (s : state) : state :=
  if report_len <? 3 then s
  else
    let s1 := mkState (tick_counter s) (nth 2 report 0) (nth 0 report 0)
                      (last_key s) in
    let s2 := if negb (last_key s1 =? current_key s1)
              then set_tick_counter 0 s1 else s1 in
    mkState (tick_counter s2) (current_key s2) (current_mod s2)
            (current_key s2).

Definition step (s : state) (e : event) : state * list (option Z) :=
  match e with
  | Report report report_len =>
      (hid_host_keyboard_report_callback report report_len s, [])
  | Tick => let (s', out) := loop_body s in (s', [out])
  end.

(** The final state and the per-tick outputs of a run. *)
Fixpoint run (s : state) (evs : list event) : state * list (option Z) :=
  match evs with
  | [] => (s, [])
  | e :: evs' =>
      let (s1, o1) := step s e in
      let (s2, o2) := run s1 evs' in
      (s2, o1 ++ o2)
  end.

(** [uart_repeat_send_task] left alone for [n] iterations. *)
Definition uart_repeat_send_task (n : nat) (s : state)
  : state * list (option Z) :=
  run s (repeat Tick n).

Inductive reachable : state -> Prop :=
| reachable_init : reachable init
| reachable_step s e : reachable s -> reachable (fst (step s e)).

End Main.

(** ** Variant 2: [src/unnamed/part_000] *)

Module Part000.

(** The file's globals, and the local [prev_key] of
    [uart_repeat_send_task], which lives across the iterations of its
    loop. *)
Record state : Type := mkState {
  tick_counter : Z;
  current_key : Z;
  current_mod : Z;
  prev_key : Z
}.

Definition init : state := mkState 0 0 0 0.

Definition set_tick_counter (t : Z) (s : state) : state :=
  mkState t (current_key s) (current_mod s) (prev_key s).

(** [if (local_key != prev_key) tick_counter = 0;] *)
Definition phase_reset (local_key : Z) (s : state) : state :=
  if negb (local_key =? prev_key s) then set_tick_counter 0 s else s.

(** [if (local_key != 0) { ... } else { tick_counter = 0; }] *)
Definition emit_advance (local_key local_mod : Z) (s : state)
  : state * option Z :=
  if negb (local_key =? 0) then
    let out :=
      if tick_counter s =? 0
      then sent_byte (usb_keycode_to_ascii local_key local_mod)
      else None in
    (set_tick_counter (advance (tick_counter s)) s, out)
  else (set_tick_counter 0 s, None).

(** One iteration of the [while (1)] loop of [uart_repeat_send_task], up to
    [vTaskDelay]. *)
Definition loop_body (s : state) : state * option Z :=
  let local_key := current_key s in
  let local_mod := current_mod s in
  let s1 := phase_reset local_key s in
  let (s2, out) := emit_advance local_key local_mod s1 in
  (mkState (tick_counter s2) (current_key s2) (current_mod s2) local_key,
   out).

Definition hid_host_keyboard_report_callback
    (report : list Z) (report_len : Z) (s : state) : state :=
  if report_len <? 3 then s
  else mkState (tick_counter s) (nth 2 report 0) (nth 0 report 0)
               (prev_key s).

Definition step (s : state) (e : event) : state * list (option Z) :=
  match e with
  | Report report report_len =>
      (hid_host_keyboard_report_callback report report_len s, [])
  | Tick => let (s', out) := loop_body s in (s', [out])
  end.

Fixpoint run (s : state) (evs : list event) : state * list (option Z) :=
  match evs with
  | [] => (s, [])
  | e :: evs' =>
      let (s1, o1) := step s e in
      let (s2, o2) := run s1 evs' in
      (s2, o1 ++ o2)
  end.

Definition uart_repeat_send_task (n : nat) (s : state)
  : state * list (option Z) :=
  run s (repeat Tick n).

Inductive reachable : state -> Prop :=
| reachable_init : reachable init
| reachable_step s e : reachable s -> reachable (fst (step s e)).

End Part000.

(** ** Runs in which the held key changes at most once between ticks *)

(** The value of [current_key] after an event, given its value before: a
    report of at least 3 bytes stores [report[2]], anything else leaves it. *)
Definition key_after (key : Z) (e : event) : Z :=
  match e with
  | Report report report_len =>
      if report_len <? 3 then key else nth 2 report 0
  | Tick => key
  end.

(** [at_most_one_change key changed evs]: starting with [key] held, and
    [changed] telling whether the held key has already changed since the last
    tick, no interval between two consecutive ticks of [evs] (nor the one
    before the first tick) sees the held key change twice. *)
Fixpoint at_most_one_change (key : Z) (changed : bool) (evs : list event)
  : bool :=
  match evs with
  | [] => true
  | Tick :: evs' => at_most_one_change key false evs'
  | e :: evs' =>
      if key_after key e =? key then at_most_one_change key changed evs'
      else if changed then false
      else at_most_one_change (key_after key e) true evs'
  end.

(** ** The two tasks interleaved statement by statement *)

Module Interleaving.

(** Where the report callback stands: returned, or before one of its two
    stores [current_mod = report[0]] and [current_key = report[2]]. *)
Inductive callback_pc : Type :=
| CbReturned
| CbStoreMod (report : list Z)
| CbStoreKey (report : list Z).

(** Where the scheduler of [part_000] stands: before the load
    [local_key = current_key], or before the load [local_mod = current_mod]
    with [local_key] already loaded.  The rest of the iteration works on the
    two locals only. *)
Inductive scheduler_pc : Type :=
| SchLoadKey
| SchLoadMod (local_key : Z).

(** The two shared bytes, the two program counters, and two histories kept
    for the statements below: the reports the callback accepted (latest
    first) and the pairs [(local_key, local_mod)] the scheduler loaded
    (latest first). *)
Record config : Type := mkConfig {
  current_key : Z;
  current_mod : Z;
  callback : callback_pc;
  scheduler : scheduler_pc;
  accepted : list (list Z);
  observed : list (Z * Z)
}.

Definition init : config := mkConfig 0 0 CbReturned SchLoadKey [] [].

(** What may happen next: the USB stack calls the callback with a report, the
    callback runs its next store, or the scheduler runs its next load.  The
    callback runs in one task and is not re-entered: a delivery has no effect
    until the previous call has returned. *)
Inductive action : Type :=
| Deliver (report : list Z) (report_len : Z)
| CallbackStep
| SchedulerStep.

Definition exec (c : config) (a : action) : config :=
  match a with
  | Deliver report report_len =>
      match callback c with
      | CbReturned =>
          if report_len <? 3 then c
          else mkConfig (current_key c) (current_mod c) (CbStoreMod report)
                        (scheduler c) (report :: accepted c) (observed c)
      | _ => c
      end
  | CallbackStep =>
      match callback c with
      | CbReturned => c
      | CbStoreMod report =>
          mkConfig (current_key c) (nth 0 report 0) (CbStoreKey report)
                   (scheduler c) (accepted c) (observed c)
      | CbStoreKey report =>
          mkConfig (nth 2 report 0) (current_mod c) CbReturned
                   (scheduler c) (accepted c) (observed c)
      end
  | SchedulerStep =>
      match scheduler c with
      | SchLoadKey =>
          mkConfig (current_key c) (current_mod c) (callback c)
                   (SchLoadMod (current_key c)) (accepted c) (observed c)
      | SchLoadMod local_key =>
          mkConfig (current_key c) (current_mod c) (callback c)
                   SchLoadKey (accepted c)
                   ((local_key, current_mod c) :: observed c)
      end
  end.

Definition run (c : config) (schedule : list action) : config :=
  fold_left exec schedule c.

(** The pair [(held_key, modifiers)] a report carries. *)
Definition pair_of (report : list Z) : Z * Z :=
  (nth 2 report 0, nth 0 report 0).

(** [p] is the initial key state or the pair of one single accepted
    report. *)
Definition from_one_report (reports : list (list Z)) (p : Z * Z) : Prop :=
  p = (0, 0) \/ exists report, In report reports /\ p = pair_of report.

(** The key state the latest accepted report asks for. *)
Definition latest_pair (reports : list (list Z)) : Z * Z :=
  match reports with
  | [] => (0, 0)
  | report :: _ => pair_of report
  end.

(** Schedules without interleaving inside a callback or inside the
    scheduler's pair of loads: each report is delivered and stored as a whole,
    each pair of loads runs as a whole. *)
Inductive block : Type :=
| WholeReport (report : list Z) (report_len : Z)
| WholeLoad.

Definition actions_of (b : block) : list action :=
  match b with
  | WholeReport report report_len =>
      [Deliver report report_len; CallbackStep; CallbackStep]
  | WholeLoad => [SchedulerStep; SchedulerStep]
  end.

Definition atomic_schedule (bs : list block) : list action :=
  flat_map actions_of bs.

(** The block of an event of a run: a whole report, or the loads at the head
    of a scheduler iteration. *)
Definition block_of (e : event) : block :=
  match e with
  | Report report report_len => WholeReport report report_len
  | Tick => WholeLoad
  end.

(** What holds between blocks: both tasks are between two accesses, the two
    shared bytes are those of the latest accepted report, and every pair
    loaded so far came from one report. *)
Definition quiescent (c : config) : Prop :=
  callback c = CbReturned /\ scheduler c = SchLoadKey /\
  (current_key c, current_mod c) = latest_pair (accepted c) /\
  Forall (from_one_report (accepted c)) (observed c).

End Interleaving.

(** ** Invariants of the reachable states *)

(** [keyboard_main.c]: the callback's [last_key] mirrors [current_key], the
    counter stays below [TICK_COUNT_MAX], and it rests at 0 while no key is
    held. *)
Definition main_inv (s : Main.state) : Prop :=
  Main.last_key s = Main.current_key s /\
  0 <= Main.tick_counter s < TICK_COUNT_MAX /\
  (Main.current_key s = 0 -> Main.tick_counter s = 0).


(** The standard 8-byte boot report with modifier byte [md] and first keycode
    [k], nothing else pressed. *)
Definition boot_report (md k : Z) : list Z := [md; 0; k; 0; 0; 0; 0; 0].

(** ** The two variants in lockstep *)

(** How a state of [keyboard_main.c] and a state of [part_000] correspond
    along a run in which [key] is held and [changed] tells whether the held
    key has changed since the last tick: same key state; [last_key] up to
    date; the counter of [keyboard_main.c] at rest while no key is held; and
    either no change is pending, [prev_key] is up to date and the counters
    agree, or a change is pending, [prev_key] still holds the old key and
    [keyboard_main.c] has already reset its counter. *)
Definition lockstep (key : Z) (changed : bool)
    (m : Main.state) (p : Part000.state) : Prop :=
  Main.current_key m = key /\ Part000.current_key p = key /\
  Main.current_mod m = Part000.current_mod p /\
  Main.last_key m = key /\
  (key = 0 -> Main.tick_counter m = 0) /\
  (if changed
   then Part000.prev_key p <> key /\ Main.tick_counter m = 0
   else Part000.prev_key p = key /\
        Main.tick_counter m = Part000.tick_counter p).

(** ** Vocabulary for the further properties *)

(** A tick's output, when there is one, is a nonzero 7-bit byte. *)
Definition ascii_byte (o : option Z) : Prop :=
  match o with
  | Some b => 1 <= b <= 127
  | None => True
  end.

(** The reports of a run, without its ticks. *)
Definition reports_only (evs : list event) : list event :=
  filter (fun e => match e with Report _ _ => true | Tick => false end) evs.

(** The per-tick outputs of [n] iterations that start with the phase counter
    at [t0] and write [byte] whenever the phase is 0. *)
Definition repeat_pattern (t0 : Z) (byte : option Z) (n : nat)
  : list (option Z) :=
  map (fun i => if (t0 + Z.of_nat i) mod TICK_COUNT_MAX =? 0
                then byte else None)
      (seq 0 n).

(** [k] is the initial held key or byte 2 of some report of the list; [md] is
    the initial modifier byte or byte 0 of some report of the list. *)
Definition key_of_a_report (reports : list (list Z)) (k : Z) : Prop :=
  k = 0 \/ exists report, In report reports /\ k = nth 2 report 0.

Definition mod_of_a_report (reports : list (list Z)) (md : Z) : Prop :=
  md = 0 \/ exists report, In report reports /\ md = nth 0 report 0.

(** ** [hid_host_interface_callback] of [part_000] *)

Module Part000Glue.
Section InterfaceCallback.

(** Constants of the vendor headers [usb/hid_host.h] and [esp_err.h]. *)
Variable HID_HOST_INTERFACE_EVENT_INPUT_REPORT : Z.
Variable ESP_OK : Z.

(** [err], [report] and [report_read_len] are what the vendor call
    [hid_host_device_get_raw_input_report_data] returned and left in the
    8-byte buffer and in the length. *)
Definition hid_host_interface_callback
    (event : Z) (err : Z) (report : list Z) (report_read_len : Z)
    (s : Part000.state) : Part000.state :=
  if event =? HID_HOST_INTERFACE_EVENT_INPUT_REPORT then
    if err =? ESP_OK
    then Part000.hid_host_keyboard_report_callback report report_read_len s
    else s
  else s.

End InterfaceCallback.
End Part000Glue.

(** What every configuration of the interleaved tasks satisfies: each shared
    byte, each byte held in a local and each byte of a loaded pair is the
    initial 0 or the corresponding byte of an accepted report, and the report
    a running callback works on has been accepted. *)
Definition well_sourced (c : Interleaving.config) : Prop :=
  key_of_a_report (Interleaving.accepted c) (Interleaving.current_key c) /\
  mod_of_a_report (Interleaving.accepted c) (Interleaving.current_mod c) /\
  match Interleaving.callback c with
  | Interleaving.CbReturned => True
  | Interleaving.CbStoreMod report | Interleaving.CbStoreKey report =>
      In report (Interleaving.accepted c)
  end /\
  match Interleaving.scheduler c with
  | Interleaving.SchLoadKey => True
  | Interleaving.SchLoadMod local_key =>
      key_of_a_report (Interleaving.accepted c) local_key
  end /\
  Forall (fun pair => key_of_a_report (Interleaving.accepted c) (fst pair) /\
                      mod_of_a_report (Interleaving.accepted c) (snd pair))
         (Interleaving.observed c).

(** * Properties *)

(** ** Arithmetic helpers *)

(** A boolean check run over [lo, lo + n) holds at every point of it. *)
Lemma Z_range_forallb (f : Z -> bool) (lo : Z) (n : nat) :
  forallb f (map (fun i => lo + Z.of_nat i) (seq 0 n)) = true ->
  forall k, lo <= k < lo + Z.of_nat n -> f k = true.
Proof.
  intros Hall k Hk.
  rewrite forallb_forall in Hall. apply Hall.
  apply in_map_iff. exists (Z.to_nat (k - lo)). split.
  - rewrite Z2Nat.id; lia.
  - apply in_seq. lia.
Qed.

Lemma bit_set_true (m mask : Z) : Z.land m mask <> 0 -> bit_set m mask = true.
Proof.
  intros H. unfold bit_set. apply negb_true_iff. now apply Z.eqb_neq.
Qed.

Lemma bit_set_false (m mask : Z) : Z.land m mask = 0 -> bit_set m mask = false.
Proof.
  intros H. unfold bit_set. rewrite H. reflexivity.
Qed.

Lemma in_table_guard (k : Z) :
  0x04 <= k <= 0x38 -> (k <? 0x04) || (k >? 0x38) = false.
Proof.
  intros Hk. apply orb_false_iff. split.
  - apply Z.ltb_ge. lia.
  - rewrite Z.gtb_ltb. apply Z.ltb_ge. lia.
Qed.

Lemma out_of_table_guard (k : Z) :
  k < 0x04 \/ k > 0x38 -> (k <? 0x04) || (k >? 0x38) = true.
Proof.
  intros Hk. apply orb_true_iff. destruct Hk as [Hk | Hk].
  - left. apply Z.ltb_lt. lia.
  - right. rewrite Z.gtb_ltb. apply Z.ltb_lt. lia.
Qed.

Lemma idx_in_table (k : Z) : 0x04 <= k <= 0x38 -> uint8_t (k - 0x04) = k - 0x04.
Proof. intros Hk. unfold uint8_t. apply Z.mod_small. lia. Qed.

(** ** The lookup tables, entry by entry *)

Lemma lut_plain_letters (k : Z) :
  0x04 <= k <= 0x1D -> char_at lut_plain (k - 0x04) = code "a" + (k - 0x04).
Proof.
  intros Hk. apply Z.eqb_eq.
  apply (Z_range_forallb
           (fun k => char_at lut_plain (k - 0x04) =? code "a" + (k - 0x04))
           0x04 26); [vm_compute; reflexivity | lia].
Qed.

Lemma lut_shift_letters (k : Z) :
  0x04 <= k <= 0x1D -> char_at lut_shift (k - 0x04) = code "A" + (k - 0x04).
Proof.
  intros Hk. apply Z.eqb_eq.
  apply (Z_range_forallb
           (fun k => char_at lut_shift (k - 0x04) =? code "A" + (k - 0x04))
           0x04 26); [vm_compute; reflexivity | lia].
Qed.

(** Neither table holds a NUL below its terminator, and every entry is
    7-bit. *)
Lemma lut_entries (k : Z) :
  0x04 <= k <= 0x38 ->
  0 < char_at lut_plain (k - 0x04) < 128 /\
  0 < char_at lut_shift (k - 0x04) < 128.
Proof.
  intros Hk.
  pose (f := fun k : Z =>
               (0 <? char_at lut_plain (k - 0x04))
               && (char_at lut_plain (k - 0x04) <? 128)
               && (0 <? char_at lut_shift (k - 0x04))
               && (char_at lut_shift (k - 0x04) <? 128)).
  assert (H : f k = true).
  { apply (Z_range_forallb f 0x04 53); [vm_compute; reflexivity | lia]. }
  subst f.
  cbv beta in H.
  repeat (apply andb_true_iff in H; destruct H as [H ?]).
  repeat match goal with
         | E : (_ <? _) = true |- _ => apply Z.ltb_lt in E
         end.
  lia.
Qed.

(** ** The translator *)

(** With a Ctrl bit set, a letter key gives its position in the alphabet. *)
Lemma usb_keycode_to_ascii_ctrl (k m : Z) :
  0x04 <= k <= 0x1D ->
  bit_set m 0x01 || bit_set m 0x10 = true ->
  usb_keycode_to_ascii k m = (k - 0x04) + 1.
Proof.
  intros Hk Hctrl. unfold usb_keycode_to_ascii.
  rewrite in_table_guard by lia.
  rewrite Hctrl, idx_in_table by lia.
  replace (k - 0x04 <=? 25) with true by (symmetry; apply Z.leb_le; lia).
  cbn [andb]. unfold char_of_int. apply Z.mod_small. lia.
Qed.

(** Without Ctrl bits, the result is the table entry selected by Shift. *)
Lemma usb_keycode_to_ascii_lookup (k m : Z) :
  0x04 <= k <= 0x38 ->
  bit_set m 0x01 || bit_set m 0x10 = false ->
  usb_keycode_to_ascii k m =
    if bit_set m 0x02 || bit_set m 0x20
    then char_at lut_shift (k - 0x04) else char_at lut_plain (k - 0x04).
Proof.
  intros Hk Hctrl. unfold usb_keycode_to_ascii.
  rewrite in_table_guard by lia.
  rewrite Hctrl, idx_in_table by lia. reflexivity.
Qed.

(** The translator returns 0 exactly outside the keycode range of the
    tables; what it returns is always a 7-bit value. *)
Lemma usb_keycode_to_ascii_zero (k m : Z) :
  usb_keycode_to_ascii k m = 0 <-> (k < 0x04 \/ k > 0x38).
Proof.
  split.
  - intros H0.
    destruct (Z_lt_ge_dec k 0x04) as [|Hlo]; [now left|].
    destruct (Z_gt_le_dec k 0x38) as [|Hhi]; [now right|].
    exfalso. revert H0. unfold usb_keycode_to_ascii.
    rewrite in_table_guard, idx_in_table by lia.
    pose proof (lut_entries k ltac:(lia)) as [Hp Hs].
    destruct (_ && _) eqn:Hc.
    + apply andb_true_iff in Hc. destruct Hc as [_ Hc].
      apply Z.leb_le in Hc. unfold char_of_int.
      rewrite Z.mod_small; lia.
    + destruct (bit_set m 0x02 || bit_set m 0x20); lia.
  - intros Hk. unfold usb_keycode_to_ascii.
    now rewrite out_of_table_guard.
Qed.

Lemma usb_keycode_to_ascii_range (k m : Z) :
  0 <= usb_keycode_to_ascii k m < 128.
Proof.
  unfold usb_keycode_to_ascii.
  destruct ((k <? 0x04) || (k >? 0x38)) eqn:Hg; [lia|].
  apply orb_false_iff in Hg. destruct Hg as [Hlo Hhi].
  apply Z.ltb_ge in Hlo. rewrite Z.gtb_ltb in Hhi. apply Z.ltb_ge in Hhi.
  rewrite idx_in_table by lia.
  pose proof (lut_entries k ltac:(lia)) as [Hp Hs].
  destruct (_ && _) eqn:Hc.
  - apply andb_true_iff in Hc. destruct Hc as [_ Hc].
    apply Z.leb_le in Hc. unfold char_of_int.
    rewrite Z.mod_small; lia.
  - destruct (bit_set m 0x02 || bit_set m 0x20); lia.
Qed.

Lemma sent_byte_spec (c : Z) (b : Z) :
  sent_byte c = Some b <-> (c <> 0 /\ b = c).
Proof.
  unfold sent_byte. destruct (c =? 0) eqn:E; cbn.
  - apply Z.eqb_eq in E. split; [discriminate | intros [H _]; contradiction].
  - apply Z.eqb_neq in E. split.
    + intros H. injection H as <-. now split.
    + intros [_ ->]. reflexivity.
Qed.

Lemma sent_byte_none (c : Z) : sent_byte c = None <-> c = 0.
Proof.
  unfold sent_byte. destruct (c =? 0) eqn:E; cbn.
  - apply Z.eqb_eq in E. now split.
  - apply Z.eqb_neq in E. split; [discriminate | contradiction].
Qed.

Lemma ctrl_of_bits (m : Z) :
  Z.land m 0x01 <> 0 \/ Z.land m 0x10 <> 0 ->
  bit_set m 0x01 || bit_set m 0x10 = true.
Proof.
  intros [H | H]; apply orb_true_iff.
  - left. now apply bit_set_true.
  - right. now apply bit_set_true.
Qed.

(** Setting a Shift bit leaves the Ctrl bits as they are. *)
Lemma ctrl_bits_lor_shift (m : Z) :
  Z.land (Z.lor m 0x02) 0x01 = Z.land m 0x01 /\
  Z.land (Z.lor m 0x02) 0x10 = Z.land m 0x10 /\
  Z.land (Z.lor m 0x20) 0x01 = Z.land m 0x01 /\
  Z.land (Z.lor m 0x20) 0x10 = Z.land m 0x10.
Proof.
  repeat split; rewrite Z.land_lor_distr_l;
    change (Z.land 0x02 0x01) with 0; change (Z.land 0x02 0x10) with 0;
    change (Z.land 0x20 0x01) with 0; change (Z.land 0x20 0x10) with 0;
    apply Z.lor_0_r.
Qed.

(** C3: for every keycode in [0x04, 0x1D] and every modifier mask with a Ctrl
    bit (0x01 or 0x10) set, the translator returns (keycode - 0x04) + 1, and
    the result stays the same when a Shift bit (0x02 or 0x20) is set on top:
    the Ctrl rule is applied before the table lookup. *)
Theorem C3_ctrl_letters (k m : Z) :
  0x04 <= k <= 0x1D ->
  Z.land m 0x01 <> 0 \/ Z.land m 0x10 <> 0 ->
  usb_keycode_to_ascii k m = (k - 0x04) + 1 /\
  usb_keycode_to_ascii k (Z.lor m 0x02) = (k - 0x04) + 1 /\
  usb_keycode_to_ascii k (Z.lor m 0x20) = (k - 0x04) + 1.
Proof.
  intros Hk Hctrl.
  destruct (ctrl_bits_lor_shift m) as (E1 & E2 & E3 & E4).
  repeat split; apply usb_keycode_to_ascii_ctrl; try lia; apply ctrl_of_bits.
  - exact Hctrl.
  - now rewrite E1, E2.
  - now rewrite E3, E4.
Qed.

Lemma C3_ctrl_letters_witness :
  usb_keycode_to_ascii 0x1D 0x10 = (0x1D - 0x04) + 1 /\
  usb_keycode_to_ascii 0x1D (Z.lor 0x10 0x02) = (0x1D - 0x04) + 1 /\
  usb_keycode_to_ascii 0x1D (Z.lor 0x10 0x20) = (0x1D - 0x04) + 1.
Proof.
  apply (C3_ctrl_letters 0x1D 0x10); [lia | right; simpl; lia].
Defined.

(** C4: without Ctrl the translator agrees with the two tables.  For every
    keycode in [0x04, 0x1D] and every mask without a Ctrl bit it gives
    'a' + (keycode - 0x04) when no Shift bit is set and
    'A' + (keycode - 0x04) when one is, in particular for the masks 0, 0x02
    and 0x20; the digit row gives '1' for 0x1E and '0' for 0x27, and '!' for
    0x1E with Shift; 0x28, 0x29 and 0x2A give newline, Esc (0x1B) and
    backspace. *)
Theorem C4_lookup_tables :
  (forall k m,
      0x04 <= k <= 0x1D ->
      Z.land m 0x01 = 0 -> Z.land m 0x10 = 0 ->
      usb_keycode_to_ascii k m =
        (if bit_set m 0x02 || bit_set m 0x20 then code "A" else code "a")
        + (k - 0x04)) /\
  (forall k,
      0x04 <= k <= 0x1D ->
      usb_keycode_to_ascii k 0 = code "a" + (k - 0x04) /\
      usb_keycode_to_ascii k 0x02 = code "A" + (k - 0x04) /\
      usb_keycode_to_ascii k 0x20 = code "A" + (k - 0x04)) /\
  usb_keycode_to_ascii 0x1E 0 = code "1" /\
  usb_keycode_to_ascii 0x27 0 = code "0" /\
  usb_keycode_to_ascii 0x1E 0x02 = code "!" /\
  usb_keycode_to_ascii 0x28 0 = 10 /\
  usb_keycode_to_ascii 0x29 0 = 0x1B /\
  usb_keycode_to_ascii 0x2A 0 = 8.
Proof.
  assert (General : forall k m,
             0x04 <= k <= 0x1D ->
             Z.land m 0x01 = 0 -> Z.land m 0x10 = 0 ->
             usb_keycode_to_ascii k m =
               (if bit_set m 0x02 || bit_set m 0x20
                then code "A" else code "a") + (k - 0x04)).
  { intros k m Hk H1 H2.
    rewrite usb_keycode_to_ascii_lookup; try lia.
    - destruct (bit_set m 0x02 || bit_set m 0x20).
      + now apply lut_shift_letters.
      + now apply lut_plain_letters.
    - now rewrite !bit_set_false. }
  split; [exact General|].
  split; [|repeat split; reflexivity].
  intros k Hk. repeat split.
  - apply (General k 0); auto.
  - apply (General k 0x02); auto.
  - apply (General k 0x20); auto.
Qed.

Lemma C4_lookup_tables_witness :
  usb_keycode_to_ascii 0x1D 0x44 = code "z" /\
  usb_keycode_to_ascii 0x04 0 = code "a" /\
  usb_keycode_to_ascii 0x04 0x02 = code "A".
Proof.
  destruct C4_lookup_tables as (General & Plain & _).
  split; [|split].
  - apply (General 0x1D 0x44); [lia | reflexivity | reflexivity].
  - apply (Plain 0x04); lia.
  - apply (Plain 0x04); lia.
Defined.

(** C5, as the code has it: the translator yields no output (returns 0)
    exactly when the keycode is outside [0x04, 0x38], whatever the modifiers;
    so 0x03 and 0x39 are unmapped.  Inside the range every slot of both tables
    is filled: the slot of keycode 0x32, between backslash (0x31) and
    semicolon (0x33), holds a space, which is returned like any other
    character. *)
Theorem C5_unmapped_iff_out_of_range :
  (forall k m, usb_keycode_to_ascii k m = 0 <-> (k < 0x04 \/ k > 0x38)) /\
  usb_keycode_to_ascii 0x03 0 = 0 /\
  usb_keycode_to_ascii 0x39 0 = 0 /\
  usb_keycode_to_ascii 0x32 0 = code " " /\
  usb_keycode_to_ascii 0x32 0x02 = code " ".
Proof.
  split; [exact usb_keycode_to_ascii_zero | repeat split; reflexivity].
Qed.

Lemma C5_unmapped_iff_out_of_range_witness :
  usb_keycode_to_ascii 0x39 0x02 = 0 /\ usb_keycode_to_ascii 0x38 0 <> 0.
Proof.
  destruct C5_unmapped_iff_out_of_range as (Iff & _).
  split.
  - apply (Iff 0x39 0x02). right. lia.
  - intros H0. apply (Iff 0x38 0) in H0. lia.
Defined.

(** C5 as stated fails at keycode 0x32: it lies inside [0x04, 0x38] and is
    the slot the claim calls a gap, yet the translator returns a space for
    it, not the unmapped result. *)
Lemma C5_gap_keycode_yields_space :
  usb_keycode_to_ascii 0x32 0 = 0x20 /\
  ~ (usb_keycode_to_ascii 0x32 0 = 0 <->
     (0x32 < 0x04 \/ 0x32 > 0x38 \/ 0x32 = 0x32)).
Proof.
  split; [reflexivity|].
  intros [_ H]. discriminate H. right. right. reflexivity.
Qed.

(** ** The phase counter *)

Lemma TICK_COUNT_MAX_value : TICK_COUNT_MAX = 50.
Proof. reflexivity. Qed.

Lemma advance_range (t : Z) : 0 <= advance t < TICK_COUNT_MAX.
Proof.
  unfold advance. rewrite TICK_COUNT_MAX_value.
  pose proof (Z.mod_pos_bound (t + 1) (2 ^ 32) ltac:(lia)) as Hb.
  unfold uint32_t. destruct (_ >=? 50) eqn:E; [lia|].
  rewrite Z.geb_leb in E. apply Z.leb_gt in E. lia.
Qed.

Lemma advance_mod (t : Z) :
  0 <= t < TICK_COUNT_MAX -> advance t = (t + 1) mod TICK_COUNT_MAX.
Proof.
  rewrite TICK_COUNT_MAX_value. intros Ht. unfold advance, uint32_t.
  rewrite TICK_COUNT_MAX_value.
  rewrite (Z.mod_small (t + 1) (2 ^ 32)) by lia.
  destruct (t + 1 >=? 50) eqn:E; rewrite Z.geb_leb in E.
  - apply Z.leb_le in E. assert (t = 49) as -> by lia. reflexivity.
  - apply Z.leb_gt in E. symmetry. apply Z.mod_small. lia.
Qed.

(** ** The report callback *)

Lemma main_callback_short (report : list Z) (report_len : Z) (s : Main.state) :
  report_len < 3 ->
  Main.hid_host_keyboard_report_callback report report_len s = s.
Proof.
  intros H. unfold Main.hid_host_keyboard_report_callback.
  now replace (report_len <? 3) with true by (symmetry; apply Z.ltb_lt; lia).
Qed.

Lemma main_callback_long (report : list Z) (report_len : Z) (s : Main.state) :
  3 <= report_len ->
  Main.hid_host_keyboard_report_callback report report_len s =
    Main.mkState
      (if nth 2 report 0 =? Main.last_key s then Main.tick_counter s else 0)
      (nth 2 report 0) (nth 0 report 0) (nth 2 report 0).
Proof.
  intros H. unfold Main.hid_host_keyboard_report_callback.
  replace (report_len <? 3) with false by (symmetry; apply Z.ltb_ge; lia).
  cbn [Main.last_key Main.current_key]. rewrite (Z.eqb_sym (Main.last_key s)).
  destruct (nth 2 report 0 =? Main.last_key s); reflexivity.
Qed.

Lemma part000_callback_short
    (report : list Z) (report_len : Z) (s : Part000.state) :
  report_len < 3 ->
  Part000.hid_host_keyboard_report_callback report report_len s = s.
Proof.
  intros H. unfold Part000.hid_host_keyboard_report_callback.
  now replace (report_len <? 3) with true by (symmetry; apply Z.ltb_lt; lia).
Qed.

Lemma part000_callback_long
    (report : list Z) (report_len : Z) (s : Part000.state) :
  3 <= report_len ->
  Part000.hid_host_keyboard_report_callback report report_len s =
    Part000.mkState (Part000.tick_counter s) (nth 2 report 0) (nth 0 report 0)
                    (Part000.prev_key s).
Proof.
  intros H. unfold Part000.hid_host_keyboard_report_callback.
  now replace (report_len <? 3) with false by (symmetry; apply Z.ltb_ge; lia).
Qed.

Lemma nth_of_nth_error (l : list Z) (i : nat) (x : Z) :
  nth_error l i = Some x -> nth i l 0 = x.
Proof. intros H. now apply nth_error_nth. Qed.

(** C6: a report of fewer than 3 bytes leaves the whole state, and so the key
    state, as it was, and the callback has no way to report an error (it
    returns nothing but the state); a report of at least 3 bytes stores byte 0
    in the modifiers and byte 2 in the held key, whatever byte 2 is, 0
    included.  Both variants. *)
Theorem C6_report_write_through
    (report : list Z) (report_len : Z)
    (m : Main.state) (p : Part000.state) :
  (report_len < 3 ->
   Main.hid_host_keyboard_report_callback report report_len m = m /\
   Part000.hid_host_keyboard_report_callback report report_len p = p) /\
  (forall md k,
      3 <= report_len ->
      nth_error report 0 = Some md -> nth_error report 2 = Some k ->
      let m' := Main.hid_host_keyboard_report_callback report report_len m in
      let p' :=
        Part000.hid_host_keyboard_report_callback report report_len p in
      Main.current_mod m' = md /\ Main.current_key m' = k /\
      Part000.current_mod p' = md /\ Part000.current_key p' = k).
Proof.
  split.
  - intros H. split.
    + now apply main_callback_short.
    + now apply part000_callback_short.
  - intros md k Hlen H0 H2 m' p'. subst m' p'.
    rewrite main_callback_long, part000_callback_long by assumption.
    apply nth_of_nth_error in H0, H2. cbn. now rewrite H0, H2.
Qed.

Lemma C6_report_write_through_witness :
  (let m := Main.mkState 7 0x04 0x02 0x04 in
   Main.hid_host_keyboard_report_callback [0x01; 0] 2 m = m) /\
  (let m' := Main.hid_host_keyboard_report_callback
               (boot_report 0x02 0) 8 (Main.mkState 7 0x04 0x02 0x04) in
   Main.current_mod m' = 0x02 /\ Main.current_key m' = 0).
Proof.
  pose proof (C6_report_write_through [0x01; 0] 2
                (Main.mkState 7 0x04 0x02 0x04) Part000.init) as [Short _].
  pose proof (C6_report_write_through (boot_report 0x02 0) 8
                (Main.mkState 7 0x04 0x02 0x04) Part000.init) as [_ Long].
  split.
  - apply Short. lia.
  - destruct (Long 0x02 0) as (Hm & Hk & _); [lia | reflexivity | reflexivity|].
    split; assumption.
Defined.

(** ** One iteration of the scheduler loop *)

Lemma main_loop_body_holding (s : Main.state) :
  Main.current_key s <> 0 ->
  Main.loop_body s =
    (Main.set_tick_counter (advance (Main.tick_counter s)) s,
     if Main.tick_counter s =? 0
     then sent_byte
            (usb_keycode_to_ascii (Main.current_key s) (Main.current_mod s))
     else None).
Proof.
  intros H. unfold Main.loop_body.
  now replace (Main.current_key s =? 0) with false
    by (symmetry; now apply Z.eqb_neq).
Qed.

Lemma main_loop_body_idle (s : Main.state) :
  Main.current_key s = 0 -> Main.loop_body s = (s, None).
Proof. intros H. unfold Main.loop_body. now rewrite H. Qed.

Lemma part000_loop_body_holding (s : Part000.state) :
  Part000.current_key s <> 0 ->
  let s1 := Part000.phase_reset (Part000.current_key s) s in
  Part000.loop_body s =
    (Part000.mkState (advance (Part000.tick_counter s1))
                     (Part000.current_key s) (Part000.current_mod s)
                     (Part000.current_key s),
     if Part000.tick_counter s1 =? 0
     then sent_byte
            (usb_keycode_to_ascii (Part000.current_key s)
                                  (Part000.current_mod s))
     else None).
Proof.
  intros H s1. unfold Part000.loop_body, Part000.emit_advance. fold s1.
  replace (Part000.current_key s =? 0) with false
    by (symmetry; now apply Z.eqb_neq).
  cbn [negb]. cbv iota beta. unfold Part000.set_tick_counter.
  cbn [Part000.tick_counter Part000.current_key Part000.current_mod].
  subst s1. unfold Part000.phase_reset.
  destruct (negb _); reflexivity.
Qed.

Lemma part000_loop_body_idle (s : Part000.state) :
  Part000.current_key s = 0 ->
  Part000.loop_body s = (Part000.mkState 0 0 (Part000.current_mod s) 0, None).
Proof.
  intros H. unfold Part000.loop_body, Part000.emit_advance. rewrite H.
  cbn [Z.eqb negb]. cbv iota beta. unfold Part000.phase_reset.
  destruct (negb _); cbn; now rewrite ?H.
Qed.

Lemma part000_phase_reset_counter (k : Z) (s : Part000.state) :
  Part000.tick_counter (Part000.phase_reset k s) =
    if k =? Part000.prev_key s then Part000.tick_counter s else 0.
Proof.
  unfold Part000.phase_reset. destruct (k =? Part000.prev_key s); reflexivity.
Qed.

(** ** Invariants *)

Lemma main_step_inv (s : Main.state) (e : event) :
  main_inv s -> main_inv (fst (Main.step s e)).
Proof.
  intros (Hlast & Hrange & Hidle). destruct e as [report report_len|]; cbn.
  - destruct (Z_lt_ge_dec report_len 3) as [Hs | Hl].
    + rewrite main_callback_short by assumption. now repeat split.
    + rewrite main_callback_long by lia. unfold main_inv. cbn.
      destruct (Z.eqb_spec (nth 2 report 0) (Main.last_key s)) as [E | E].
      * split; [reflexivity | split; [assumption|]].
        intros H0. apply Hidle. congruence.
      * split; [reflexivity | split; [lia | reflexivity]].
  - destruct (Z.eq_dec (Main.current_key s) 0) as [E | E].
    + rewrite main_loop_body_idle by assumption. now repeat split.
    + rewrite main_loop_body_holding by assumption. unfold main_inv. cbn.
      split; [assumption | split; [apply advance_range|]].
      intros H0. contradiction.
Qed.

Lemma main_reachable_inv (s : Main.state) : Main.reachable s -> main_inv s.
Proof.
  induction 1 as [| s e _ IH].
  - unfold main_inv. rewrite TICK_COUNT_MAX_value. cbn. repeat split; lia.
  - now apply main_step_inv.
Qed.








(** C8, as the code has it.  In [part_000] the report callback neither
    writes nor reads the phase counter: it leaves [tick_counter] (and the
    scheduler's [prev_key]) as they were, and running it commutes with any
    change of the counter; only the scheduler loop touches the counter.  In
    [keyboard_main.c] the callback does write the counter: it sets it to 0
    when it accepts a report whose key differs from the last accepted key
    ([last_key]), and leaves it alone otherwise. *)
Theorem C8_callback_and_counter
    (report : list Z) (report_len : Z)
    (m : Main.state) (p : Part000.state) :
  (let p' := Part000.hid_host_keyboard_report_callback report report_len p in
   Part000.tick_counter p' = Part000.tick_counter p /\
   Part000.prev_key p' = Part000.prev_key p /\
   forall t,
     Part000.hid_host_keyboard_report_callback report report_len
       (Part000.set_tick_counter t p) = Part000.set_tick_counter t p') /\
  Main.tick_counter
    (Main.hid_host_keyboard_report_callback report report_len m) =
    (if report_len <? 3 then Main.tick_counter m
     else if nth 2 report 0 =? Main.last_key m then Main.tick_counter m
          else 0).
Proof.
  split.
  - unfold Part000.hid_host_keyboard_report_callback.
    destruct (report_len <? 3); cbn; repeat split; reflexivity.
  - destruct (Z.ltb_spec report_len 3) as [H | H].
    + now rewrite main_callback_short.
    + now rewrite main_callback_long.
Qed.

(** C8 as stated fails in [keyboard_main.c]: with key 0x04 held for three
    ticks the counter is 3, and the callback that stores key 0x05 sets it to
    0. *)
Lemma C8_main_callback_resets_counter :
  let s := fst (Main.run Main.init
                  [Report (boot_report 0 0x04) 8; Tick; Tick; Tick]) in
  Main.tick_counter s = 3 /\
  Main.tick_counter
    (Main.hid_host_keyboard_report_callback (boot_report 0 0x05) 8 s) = 0 /\
  Main.tick_counter
    (Main.hid_host_keyboard_report_callback (boot_report 0 0x05) 8 s) <>
    Main.tick_counter s.
Proof.
  cbn. repeat split; discriminate.
Qed.

(** ** Emission *)

Lemma main_emits_iff (s : Main.state) (b : Z) :
  snd (Main.loop_body s) = Some b <->
  (Main.current_key s <> 0 /\ Main.tick_counter s = 0 /\
   usb_keycode_to_ascii (Main.current_key s) (Main.current_mod s) <> 0 /\
   b = usb_keycode_to_ascii (Main.current_key s) (Main.current_mod s)).
Proof.
  destruct (Z.eq_dec (Main.current_key s) 0) as [E | E].
  - rewrite main_loop_body_idle by assumption. cbn.
    split; [discriminate | intros (H & _); contradiction].
  - rewrite main_loop_body_holding by assumption. cbn [snd].
    destruct (Z.eqb_spec (Main.tick_counter s) 0) as [T | T].
    + rewrite sent_byte_spec. tauto.
    + split; [discriminate | intros (_ & H & _); contradiction].
Qed.

Lemma part000_emits_iff (s : Part000.state) (b : Z) :
  snd (Part000.loop_body s) = Some b <->
  (Part000.current_key s <> 0 /\
   Part000.tick_counter (Part000.phase_reset (Part000.current_key s) s) = 0 /\
   usb_keycode_to_ascii (Part000.current_key s) (Part000.current_mod s) <> 0 /\
   b = usb_keycode_to_ascii (Part000.current_key s) (Part000.current_mod s)).
Proof.
  destruct (Z.eq_dec (Part000.current_key s) 0) as [E | E].
  - rewrite part000_loop_body_idle by assumption. cbn [snd].
    split; [discriminate | intros (H & _); contradiction].
  - rewrite part000_loop_body_holding by assumption. cbn [snd].
    destruct (Z.eqb_spec
                (Part000.tick_counter
                   (Part000.phase_reset (Part000.current_key s) s)) 0)
      as [T | T].
    + rewrite sent_byte_spec. tauto.
    + split; [discriminate | intros (_ & H & _); contradiction].
Qed.

(** C1: at a scheduler tick a byte [b] is written to the UART if and only if
    the held key is nonzero, the phase counter is 0 when the emission check
    runs (in [part_000] that is after the key-change reset at the head of the
    iteration) and the translator returns a nonzero character for the held key
    and modifiers; [b] is that character.  When the translator returns 0 for
    a held key, nothing is written and the counter advances all the same.  One
    report with keycode 0x04 and no modifiers, followed by 200 ticks of 10 ms,
    (the scheduler left alone for 200 iterations after the callback), gives
    exactly four writes of 'a', at 0, 500, 1000 and 1500 ms.  Both
    variants. *)
Theorem C1_emission_rule (m : Main.state) (p : Part000.state) (b : Z) :
  (snd (Main.loop_body m) = Some b <->
   (Main.current_key m <> 0 /\ Main.tick_counter m = 0 /\
    usb_keycode_to_ascii (Main.current_key m) (Main.current_mod m) <> 0 /\
    b = usb_keycode_to_ascii (Main.current_key m) (Main.current_mod m))) /\
  (snd (Part000.loop_body p) = Some b <->
   (Part000.current_key p <> 0 /\
    Part000.tick_counter (Part000.phase_reset (Part000.current_key p) p) = 0 /\
    usb_keycode_to_ascii (Part000.current_key p) (Part000.current_mod p) <> 0 /\
    b = usb_keycode_to_ascii (Part000.current_key p) (Part000.current_mod p))) /\
  (Main.current_key m <> 0 ->
   usb_keycode_to_ascii (Main.current_key m) (Main.current_mod m) = 0 ->
   snd (Main.loop_body m) = None /\
   Main.tick_counter (fst (Main.loop_body m)) =
     advance (Main.tick_counter m) /\
   (0 <= Main.tick_counter m < TICK_COUNT_MAX ->
    Main.tick_counter (fst (Main.loop_body m)) =
      (Main.tick_counter m + 1) mod TICK_COUNT_MAX)) /\
  (Part000.current_key p <> 0 ->
   usb_keycode_to_ascii (Part000.current_key p) (Part000.current_mod p) = 0 ->
   let t := Part000.tick_counter
              (Part000.phase_reset (Part000.current_key p) p) in
   snd (Part000.loop_body p) = None /\
   Part000.tick_counter (fst (Part000.loop_body p)) = advance t /\
   (0 <= t < TICK_COUNT_MAX ->
    Part000.tick_counter (fst (Part000.loop_body p)) =
      (t + 1) mod TICK_COUNT_MAX)) /\
  emissions 0
    (snd (Main.uart_repeat_send_task 200
            (Main.hid_host_keyboard_report_callback
               [0; 0; 0x04; 0; 0; 0; 0; 0] 8 Main.init))) =
    [(0, code "a"); (500, code "a"); (1000, code "a"); (1500, code "a")] /\
  emissions 0
    (snd (Part000.uart_repeat_send_task 200
            (Part000.hid_host_keyboard_report_callback
               [0; 0; 0x04; 0; 0; 0; 0; 0] 8 Part000.init))) =
    [(0, code "a"); (500, code "a"); (1000, code "a"); (1500, code "a")].
Proof.
  split; [apply main_emits_iff|]. split; [apply part000_emits_iff|].
  split; [|split; [|split; vm_compute; reflexivity]].
  - intros Hk Hz. rewrite main_loop_body_holding by assumption. cbn [fst snd].
    rewrite Hz. cbn [Main.tick_counter Main.set_tick_counter].
    split; [destruct (Main.tick_counter m =? 0); reflexivity|].
    split; [reflexivity | apply advance_mod].
  - intros Hk Hz t. rewrite part000_loop_body_holding by assumption.
    cbn [fst snd]. rewrite Hz. cbn [Part000.tick_counter]. fold t.
    split; [destruct (t =? 0); reflexivity|].
    split; [reflexivity | apply advance_mod].
Qed.

Lemma C1_emission_rule_witness :
  let m := Main.mkState 0 0x04 0x02 0x04 in
  let u := Main.mkState 7 0x39 0 0x39 in
  snd (Main.loop_body m) = Some (code "A") /\
  snd (Main.loop_body u) = None /\
  Main.tick_counter (fst (Main.loop_body u)) = (7 + 1) mod TICK_COUNT_MAX.
Proof.
  intros m u. split.
  - apply (C1_emission_rule m Part000.init (code "A")).
    repeat split; try reflexivity; vm_compute; intros H; discriminate H.
  - destruct (C1_emission_rule u Part000.init 0) as (_ & _ & Hu & _).
    destruct Hu as (Hnone & _ & Hadv).
    + vm_compute. intros H; discriminate H.
    + reflexivity.
    + split; [exact Hnone|].
      apply Hadv. rewrite TICK_COUNT_MAX_value. simpl. lia.
Defined.




(** ** Equivalence of the two variants *)

Lemma lockstep_tick (key : Z) (changed : bool)
    (m : Main.state) (p : Part000.state) :
  lockstep key changed m p ->
  snd (Main.loop_body m) = snd (Part000.loop_body p) /\
  lockstep key false (fst (Main.loop_body m)) (fst (Part000.loop_body p)).
Proof.
  intros (Hmk & Hpk & Hmod & Hlast & Hidle & Hc).
  destruct (Z.eq_dec key 0) as [E | E].
  - rewrite main_loop_body_idle, part000_loop_body_idle by congruence.
    cbn [fst snd]. split; [reflexivity|].
    unfold lockstep. cbn. intuition congruence.
  - rewrite main_loop_body_holding, part000_loop_body_holding by congruence.
    cbn [fst snd].
    assert (Ht : Part000.tick_counter
                   (Part000.phase_reset (Part000.current_key p) p) =
                 Main.tick_counter m).
    { rewrite part000_phase_reset_counter, Hpk.
      destruct changed; destruct Hc as [Hprev Htc].
      - replace (key =? Part000.prev_key p) with false
          by (symmetry; apply Z.eqb_neq; congruence).
        congruence.
      - rewrite Hprev, Z.eqb_refl. congruence. }
    rewrite Ht, Hmk, Hpk, Hmod. split; [reflexivity|].
    unfold lockstep. cbn. intuition congruence.
Qed.

Lemma lockstep_report (key : Z) (changed : bool)
    (report : list Z) (report_len : Z)
    (m : Main.state) (p : Part000.state) :
  lockstep key changed m p ->
  let key' := key_after key (Report report report_len) in
  (key' <> key -> changed = false) ->
  lockstep key' (if key' =? key then changed else true)
    (Main.hid_host_keyboard_report_callback report report_len m)
    (Part000.hid_host_keyboard_report_callback report report_len p).
Proof.
  intros (Hmk & Hpk & Hmod & Hlast & Hidle & Hc) key' Hone. subst key'.
  cbn [key_after] in *.
  destruct (Z.ltb_spec report_len 3) as [Hs | Hl].
  - rewrite main_callback_short, part000_callback_short by assumption.
    rewrite Z.eqb_refl. unfold lockstep. auto 10.
  - rewrite main_callback_long, part000_callback_long by assumption.
    rewrite Hlast. unfold lockstep. cbn.
    destruct (Z.eqb_spec (nth 2 report 0) key) as [E | E].
    + rewrite E. destruct changed; intuition congruence.
    + rewrite (Hone E) in Hc. destruct Hc as [Hprev Htc].
      repeat split; auto; congruence.
Qed.

Lemma lockstep_run (evs : list event) :
  forall key changed m p,
    lockstep key changed m p ->
    at_most_one_change key changed evs = true ->
    snd (Main.run m evs) = snd (Part000.run p evs).
Proof.
  induction evs as [| e evs IH]; intros key changed m p Hsim Hone;
    [reflexivity|].
  destruct e as [report report_len|].
  - cbn [Main.run Part000.run Main.step Part000.step].
    pose proof (lockstep_report key changed report report_len m p Hsim)
      as Hrep.
    cbn [at_most_one_change] in Hone. cbv zeta in Hrep.
    set (key' := key_after key (Report report report_len)) in *.
    destruct (Z.eqb_spec key' key) as [E | E].
    + specialize (IH key changed _ _ ltac:(rewrite <- E at 1; apply Hrep;
                                           intros; contradiction) Hone).
      destruct (Main.run _ evs), (Part000.run _ evs). cbn in *.
      exact IH.
    + destruct changed; [discriminate Hone|].
      specialize (IH key' true _ _ (Hrep ltac:(reflexivity)) Hone).
      destruct (Main.run _ evs), (Part000.run _ evs). cbn in *.
      exact IH.
  - cbn [Main.run Part000.run Main.step Part000.step].
    destruct (lockstep_tick key changed m p Hsim) as [Hout Hnext].
    cbn [at_most_one_change] in Hone.
    destruct (Main.loop_body m) as [m1 om],
             (Part000.loop_body p) as [p1 op].
    cbn [fst snd] in *.
    specialize (IH key false m1 p1 Hnext Hone).
    destruct (Main.run m1 evs), (Part000.run p1 evs). cbn in *.
    now rewrite Hout, IH.
Qed.

(** C10: the two variants write the same bytes at the same ticks on every
    run of whole reports and whole ticks, started in the initial state, in
    which the held key changes at most once between two consecutive ticks
    (and before the first one). *)
Theorem C10_variants_agree (evs : list event) :
  at_most_one_change 0 false evs = true ->
  snd (Main.run Main.init evs) = snd (Part000.run Part000.init evs).
Proof.
  apply lockstep_run. unfold lockstep. cbn. auto 10.
Qed.

Lemma C10_variants_agree_witness :
  let evs :=
    Report (boot_report 0 0x04) 8 :: repeat Tick 20 ++
    Report (boot_report 0x02 0x04) 8 :: Report (boot_report 0x02 0x05) 8 ::
    repeat Tick 60 ++ Report (boot_report 0 0) 8 :: repeat Tick 5 in
  snd (Main.run Main.init evs) = snd (Part000.run Part000.init evs).
Proof.
  intros evs. apply (C10_variants_agree evs). vm_compute. reflexivity.
Defined.

(** Without the restriction the variants differ: when the key goes from 0x04
    to 0x05 and back between two ticks, [keyboard_main.c] restarts the phase
    and writes 'a' at the next tick, [part_000] sees the same key as before
    and keeps its phase. *)
Example two_changes_between_ticks_differ :
  let evs :=
    Report (boot_report 0 0x04) 8 :: repeat Tick 10 ++
    [Report (boot_report 0 0x05) 8; Report (boot_report 0 0x04) 8; Tick] in
  at_most_one_change 0 false evs = false /\
  emissions 0 (snd (Main.run Main.init evs)) =
    [(0, code "a"); (100, code "a")] /\
  emissions 0 (snd (Part000.run Part000.init evs)) = [(0, code "a")].
Proof.
  vm_compute. repeat split; reflexivity.
Qed.

(** ** The key state under interleaving *)

Lemma from_one_report_more (reports : list (list Z)) (r : list Z) (p : Z * Z) :
  Interleaving.from_one_report reports p ->
  Interleaving.from_one_report (r :: reports) p.
Proof.
  intros [H | (r' & Hin & H)]; [now left | right].
  exists r'. split; [now right | assumption].
Qed.

Lemma latest_pair_from_one_report (reports : list (list Z)) :
  Interleaving.from_one_report reports (Interleaving.latest_pair reports).
Proof.
  destruct reports as [| r reports]; [now left | right].
  exists r. split; [now left | reflexivity].
Qed.

Lemma callback_step_returned (c : Interleaving.config) :
  Interleaving.callback c = Interleaving.CbReturned ->
  Interleaving.exec c Interleaving.CallbackStep = c.
Proof. intros H. cbn. now rewrite H. Qed.

Lemma whole_report_block
    (c : Interleaving.config) (report : list Z) (report_len : Z) :
  Interleaving.callback c = Interleaving.CbReturned ->
  Interleaving.run c
    (Interleaving.actions_of (Interleaving.WholeReport report report_len)) =
    if report_len <? 3 then c
    else Interleaving.mkConfig
           (nth 2 report 0) (nth 0 report 0) Interleaving.CbReturned
           (Interleaving.scheduler c)
           (report :: Interleaving.accepted c) (Interleaving.observed c).
Proof.
  intros Hcb.
  cbn [Interleaving.actions_of Interleaving.run fold_left].
  assert (H1 : Interleaving.exec c (Interleaving.Deliver report report_len) =
               if report_len <? 3 then c
               else Interleaving.mkConfig
                      (Interleaving.current_key c) (Interleaving.current_mod c)
                      (Interleaving.CbStoreMod report)
                      (Interleaving.scheduler c)
                      (report :: Interleaving.accepted c)
                      (Interleaving.observed c)).
  { cbn. now rewrite Hcb. }
  rewrite H1. destruct (report_len <? 3).
  - now rewrite !(callback_step_returned c Hcb).
  - reflexivity.
Qed.

Lemma whole_load_block (c : Interleaving.config) :
  Interleaving.scheduler c = Interleaving.SchLoadKey ->
  Interleaving.run c (Interleaving.actions_of Interleaving.WholeLoad) =
    Interleaving.mkConfig
      (Interleaving.current_key c) (Interleaving.current_mod c)
      (Interleaving.callback c) Interleaving.SchLoadKey
      (Interleaving.accepted c)
      ((Interleaving.current_key c, Interleaving.current_mod c)
       :: Interleaving.observed c).
Proof.
  intros Hsch.
  cbn [Interleaving.actions_of Interleaving.run fold_left].
  assert (H1 : Interleaving.exec c Interleaving.SchedulerStep =
               Interleaving.mkConfig
                 (Interleaving.current_key c) (Interleaving.current_mod c)
                 (Interleaving.callback c)
                 (Interleaving.SchLoadMod (Interleaving.current_key c))
                 (Interleaving.accepted c) (Interleaving.observed c)).
  { cbn. now rewrite Hsch. }
  rewrite H1. reflexivity.
Qed.

Lemma quiescent_block (c : Interleaving.config) (b : Interleaving.block) :
  Interleaving.quiescent c ->
  Interleaving.quiescent
    (Interleaving.run c (Interleaving.actions_of b)).
Proof.
  intros (Hcb & Hsch & Hpair & Hobs). destruct b as [report report_len|].
  - rewrite whole_report_block by assumption.
    destruct (report_len <? 3).
    + unfold Interleaving.quiescent. auto.
    + unfold Interleaving.quiescent. cbn.
      split; [reflexivity | split; [assumption | split; [reflexivity|]]].
      eapply Forall_impl; [|exact Hobs].
      intros p. apply from_one_report_more.
  - rewrite whole_load_block by assumption.
    unfold Interleaving.quiescent. cbn.
    split; [assumption | split; [reflexivity | split; [assumption|]]].
    constructor; [|assumption].
    rewrite Hpair. apply latest_pair_from_one_report.
Qed.

Lemma run_app (c : Interleaving.config) (l1 l2 : list Interleaving.action) :
  Interleaving.run c (l1 ++ l2) = Interleaving.run (Interleaving.run c l1) l2.
Proof. apply fold_left_app. Qed.

Lemma quiescent_atomic (bs : list Interleaving.block) :
  forall c,
    Interleaving.quiescent c ->
    Interleaving.quiescent
      (Interleaving.run c (Interleaving.atomic_schedule bs)).
Proof.
  induction bs as [| b bs IH]; intros c Hc; [exact Hc|].
  unfold Interleaving.atomic_schedule. cbn [flat_map]. rewrite run_app.
  apply IH. now apply quiescent_block.
Qed.

Lemma quiescent_init : Interleaving.quiescent Interleaving.init.
Proof.
  unfold Interleaving.quiescent. cbn. repeat split; constructor.
Qed.

(** Run block by block, the interleaving model holds the key state of the
    sequential model of [part_000]. *)
Lemma atomic_schedule_key_state (evs : list event) :
  forall c s,
    Interleaving.quiescent c ->
    Interleaving.current_key c = Part000.current_key s ->
    Interleaving.current_mod c = Part000.current_mod s ->
    let c' := Interleaving.run c
                (Interleaving.atomic_schedule
                   (map Interleaving.block_of evs)) in
    let s' := fst (Part000.run s evs) in
    Interleaving.current_key c' = Part000.current_key s' /\
    Interleaving.current_mod c' = Part000.current_mod s'.
Proof.
  induction evs as [| e evs IH]; intros c s Hq Hk Hm; [now split|].
  cbn [map]. unfold Interleaving.atomic_schedule. cbn [flat_map].
  rewrite run_app. cbn [Part000.run].
  pose proof (quiescent_block c (Interleaving.block_of e) Hq) as Hq'.
  set (c1 := Interleaving.run c
               (Interleaving.actions_of (Interleaving.block_of e))) in *.
  assert (H1 : Interleaving.current_key c1 =
               Part000.current_key (fst (Part000.step s e)) /\
               Interleaving.current_mod c1 =
               Part000.current_mod (fst (Part000.step s e))).
  { subst c1. destruct Hq as (Hcb & Hsch & _).
    destruct e as [report report_len|]; cbn [Interleaving.block_of].
    - rewrite whole_report_block by assumption.
      cbn [Part000.step fst].
      unfold Part000.hid_host_keyboard_report_callback.
      destruct (report_len <? 3); cbn; now split.
    - rewrite whole_load_block by assumption. cbn [Part000.step].
      destruct (Z.eq_dec (Part000.current_key s) 0) as [E | E].
      + rewrite part000_loop_body_idle by assumption. cbn. split; congruence.
      + rewrite part000_loop_body_holding by assumption. cbn. now split. }
  destruct H1 as [Hk1 Hm1].
  specialize (IH c1 (fst (Part000.step s e)) Hq' Hk1 Hm1).
  destruct (Part000.step s e) as [s1 o1]. cbn [fst] in *.
  destruct (Part000.run s1 evs) as [s2 o2]. exact IH.
Qed.

(** C9, as the code has it.  The key state is two separate bytes without a
    lock: the callback stores the modifiers and then the key, the scheduler
    loads the key and then the modifiers.  When every report is stored as a
    whole and every pair of loads runs as a whole (no task runs between the
    two stores or between the two loads), the two bytes between blocks are
    those of the latest accepted report, the pair the scheduler loads next is
    that pair, and every pair it has loaded came from one single report (or
    is the initial state). *)
Theorem C9_whole_blocks_read_one_report (bs : list Interleaving.block) :
  let c := Interleaving.run Interleaving.init
             (Interleaving.atomic_schedule bs) in
  let c' := Interleaving.run c
              (Interleaving.actions_of Interleaving.WholeLoad) in
  (Interleaving.current_key c, Interleaving.current_mod c) =
    Interleaving.latest_pair (Interleaving.accepted c) /\
  Interleaving.observed c' =
    Interleaving.latest_pair (Interleaving.accepted c)
    :: Interleaving.observed c /\
  Forall (Interleaving.from_one_report (Interleaving.accepted c))
         (Interleaving.observed c).
Proof.
  intros c c'.
  destruct (quiescent_atomic bs Interleaving.init quiescent_init)
    as (Hcb & Hsch & Hpair & Hobs).
  fold c in Hcb, Hsch, Hpair, Hobs.
  split; [exact Hpair|]. split; [|exact Hobs].
  subst c'. rewrite whole_load_block by assumption. cbn. now rewrite Hpair.
Qed.

(** C9 as stated fails once the two tasks interleave.  Report (mod 0, key
    0x04) is stored; of report (mod 0x02, key 0x05) only the modifier store
    has run when the scheduler loads the key and then the modifiers: it holds
    key 0x04 of the first report with modifiers 0x02 of the second, a pair no
    report carried, and would send 'A', where the first report asks for 'a'
    and the second for 'B'. *)
Lemma C9_torn_read_under_interleaving :
  let schedule :=
    [Interleaving.Deliver (boot_report 0 0x04) 8;
     Interleaving.CallbackStep; Interleaving.CallbackStep;
     Interleaving.Deliver (boot_report 0x02 0x05) 8;
     Interleaving.CallbackStep;
     Interleaving.SchedulerStep; Interleaving.SchedulerStep] in
  let c := Interleaving.run Interleaving.init schedule in
  Interleaving.observed c = [(0x04, 0x02)] /\
  Interleaving.accepted c = [boot_report 0x02 0x05; boot_report 0 0x04] /\
  ~ Forall (Interleaving.from_one_report (Interleaving.accepted c))
           (Interleaving.observed c) /\
  usb_keycode_to_ascii 0x04 0x02 = code "A" /\
  usb_keycode_to_ascii 0x04 0 = code "a" /\
  usb_keycode_to_ascii 0x05 0x02 = code "B".
Proof.
  cbn zeta. split; [reflexivity|]. split; [reflexivity|].
  split; [|repeat split; reflexivity].
  intros H. cbn in H. inversion H as [| p l Hp _]; subst.
  destruct Hp as [Hp | (r & Hin & Hp)]; [discriminate Hp|].
  destruct Hin as [<- | [<- | []]]; discriminate Hp.
Qed.

(** * Further properties of the code *)

(** ** Translator *)

Lemma usb_keycode_to_ascii_flags (k m m' : Z) :
  bit_set m 0x01 = bit_set m' 0x01 -> bit_set m 0x10 = bit_set m' 0x10 ->
  bit_set m 0x02 = bit_set m' 0x02 -> bit_set m 0x20 = bit_set m' 0x20 ->
  usb_keycode_to_ascii k m = usb_keycode_to_ascii k m'.
Proof.
  intros H1 H2 H3 H4. unfold usb_keycode_to_ascii.
  now rewrite H1, H2, H3, H4.
Qed.

Lemma bit_set_land_mask (m mask b : Z) :
  Z.land mask b = b -> bit_set (Z.land m mask) b = bit_set m b.
Proof.
  intros H. unfold bit_set. now rewrite <- Z.land_assoc, H.
Qed.

Lemma bit_set_land_clear (m mask b : Z) :
  Z.land mask b = 0 -> bit_set (Z.land m mask) b = false.
Proof.
  intros H. unfold bit_set. now rewrite <- Z.land_assoc, H, Z.land_0_r.
Qed.

Lemma bit_set_lor_other (m extra b : Z) :
  Z.land extra b = 0 -> bit_set (Z.lor m extra) b = bit_set m b.
Proof.
  intros H. unfold bit_set. now rewrite Z.land_lor_distr_l, H, Z.lor_0_r.
Qed.

(** X1: whatever the keycode and the modifier byte, the translator returns a
    7-bit value (0 for no output, else 1 to 127), so the conversion to [char]
    never truncates and never gives a negative character. *)
Theorem X1_translator_is_seven_bit (k m : Z) :
  0 <= usb_keycode_to_ascii k m <= 127 /\
  (usb_keycode_to_ascii k m <> 0 -> 1 <= usb_keycode_to_ascii k m <= 127) /\
  sent_byte (usb_keycode_to_ascii k m) <> Some 0.
Proof.
  pose proof (usb_keycode_to_ascii_range k m) as Hr.
  split; [lia|]. split; [lia|].
  intros H. apply sent_byte_spec in H. destruct H as [H1 H2]. congruence.
Qed.

Lemma X1_translator_is_seven_bit_witness :
  1 <= usb_keycode_to_ascii 0x38 0x02 <= 127.
Proof.
  destruct (X1_translator_is_seven_bit 0x38 0x02) as (_ & H & _).
  apply H. vm_compute. intros E; discriminate E.
Defined.

(** X2: both tables have 0x35 characters, and for every keycode that passes
    the range guard the index [key_code - 0x04] lies below that length: the
    lookup never reads the terminator nor past the literal. *)
Theorem X2_table_index_in_bounds (k : Z) :
  (k <? 0x04) || (k >? 0x38) = false ->
  String.length lut_plain = 0x35%nat /\
  String.length lut_shift = 0x35%nat /\
  (Z.to_nat (uint8_t (k - 0x04)) < 0x35)%nat /\
  (exists c, String.get (Z.to_nat (uint8_t (k - 0x04))) lut_plain = Some c) /\
  (exists c, String.get (Z.to_nat (uint8_t (k - 0x04))) lut_shift = Some c).
Proof.
  intros Hg. apply orb_false_iff in Hg. destruct Hg as [Hlo Hhi].
  apply Z.ltb_ge in Hlo. rewrite Z.gtb_ltb in Hhi. apply Z.ltb_ge in Hhi.
  rewrite idx_in_table by lia.
  split; [reflexivity|]. split; [reflexivity|]. split; [lia|].
  pose (f := fun k : Z =>
               match String.get (Z.to_nat (k - 0x04)) lut_plain,
                     String.get (Z.to_nat (k - 0x04)) lut_shift with
               | Some _, Some _ => true
               | _, _ => false
               end).
  assert (H : f k = true).
  { apply (Z_range_forallb f 0x04 53); [vm_compute; reflexivity | lia]. }
  subst f. cbv beta in H.
  destruct (String.get (Z.to_nat (k - 0x04)) lut_plain) as [c1|];
    [|discriminate H].
  destruct (String.get (Z.to_nat (k - 0x04)) lut_shift) as [c2|];
    [|discriminate H].
  split; eauto.
Qed.

Lemma X2_table_index_in_bounds_witness :
  (Z.to_nat (uint8_t (0x38 - 0x04)) < 0x35)%nat.
Proof.
  destruct (X2_table_index_in_bounds 0x38) as (_ & _ & H & _);
    [reflexivity | exact H].
Defined.

(** X3: only the Ctrl bits (0x01, 0x10) and the Shift bits (0x02, 0x20) of
    the modifier byte matter.  Clearing or setting the Alt and GUI bits (0x04,
    0x08, 0x40, 0x80) never changes the result, and two modifier bytes that
    agree on those four bits translate alike. *)
Theorem X3_alt_and_gui_bits_are_ignored (k m : Z) :
  usb_keycode_to_ascii k (Z.land m 0x33) = usb_keycode_to_ascii k m /\
  usb_keycode_to_ascii k (Z.lor m 0xCC) = usb_keycode_to_ascii k m /\
  (forall m', Z.land m' 0x33 = Z.land m 0x33 ->
              usb_keycode_to_ascii k m' = usb_keycode_to_ascii k m).
Proof.
  assert (Hland : forall x,
             usb_keycode_to_ascii k (Z.land x 0x33) =
             usb_keycode_to_ascii k x).
  { intros x.
    apply usb_keycode_to_ascii_flags; apply bit_set_land_mask; reflexivity. }
  split; [apply Hland|]. split.
  - apply usb_keycode_to_ascii_flags; apply bit_set_lor_other; reflexivity.
  - intros m' H. now rewrite <- (Hland m'), <- (Hland m), H.
Qed.

(** X4: the Ctrl rule is limited to the letters.  For every keycode from 0x1E
    to 0x38 (digits, Enter to Space, punctuation) the Ctrl bits are ignored:
    the result is the table entry chosen by Shift alone. *)
Theorem X4_ctrl_is_ignored_off_the_letters (k m : Z) :
  0x1E <= k <= 0x38 ->
  usb_keycode_to_ascii k m = usb_keycode_to_ascii k (Z.land m 0x22) /\
  usb_keycode_to_ascii k m =
    if bit_set m 0x02 || bit_set m 0x20
    then char_at lut_shift (k - 0x04) else char_at lut_plain (k - 0x04).
Proof.
  intros Hk.
  assert (Hlookup : forall x,
             usb_keycode_to_ascii k x =
             if bit_set x 0x02 || bit_set x 0x20
             then char_at lut_shift (k - 0x04)
             else char_at lut_plain (k - 0x04)).
  { intros x. unfold usb_keycode_to_ascii.
    rewrite in_table_guard, idx_in_table by lia.
    replace (k - 0x04 <=? 25) with false by (symmetry; apply Z.leb_gt; lia).
    now rewrite andb_false_r. }
  split; [|apply Hlookup].
  rewrite (Hlookup m), (Hlookup (Z.land m 0x22)).
  now rewrite !bit_set_land_mask by reflexivity.
Qed.

Lemma X4_ctrl_is_ignored_off_the_letters_witness :
  usb_keycode_to_ascii 0x1E 0x11 = usb_keycode_to_ascii 0x1E (Z.land 0x11 0x22).
Proof.
  apply (X4_ctrl_is_ignored_off_the_letters 0x1E 0x11). lia.
Defined.

(** X5: Enter, Esc, Backspace, Tab and Space (keycodes 0x28 to 0x2C) give the
    same byte under every modifier byte: the two tables agree on them and the
    Ctrl rule does not reach them. *)
Theorem X5_control_keys_ignore_modifiers (k m : Z) :
  0x28 <= k <= 0x2C ->
  usb_keycode_to_ascii k m = usb_keycode_to_ascii k 0 /\
  usb_keycode_to_ascii k m = nth (Z.to_nat (k - 0x28)) [10; 0x1B; 8; 9; 0x20] 0.
Proof.
  intros Hk.
  pose (f := fun k : Z =>
               (char_at lut_shift (k - 0x04) =? char_at lut_plain (k - 0x04))
               && (char_at lut_plain (k - 0x04) =?
                   nth (Z.to_nat (k - 0x28)) [10; 0x1B; 8; 9; 0x20] 0)).
  assert (H : f k = true).
  { apply (Z_range_forallb f 0x28 5); [vm_compute; reflexivity | lia]. }
  subst f. cbv beta in H. apply andb_true_iff in H. destruct H as [H1 H2].
  apply Z.eqb_eq in H1, H2.
  assert (Hany : forall x,
             usb_keycode_to_ascii k x = char_at lut_plain (k - 0x04)).
  { intros x. unfold usb_keycode_to_ascii.
    rewrite in_table_guard, idx_in_table by lia.
    replace (k - 0x04 <=? 25) with false by (symmetry; apply Z.leb_gt; lia).
    rewrite andb_false_r, H1. now destruct (_ || _). }
  split; [now rewrite (Hany m), (Hany 0) | now rewrite Hany].
Qed.

Lemma X5_control_keys_ignore_modifiers_witness :
  usb_keycode_to_ascii 0x28 0x13 = usb_keycode_to_ascii 0x28 0.
Proof.
  apply (X5_control_keys_ignore_modifiers 0x28 0x13). lia.
Defined.

Lemma X3_alt_and_gui_bits_are_ignored_witness :
  usb_keycode_to_ascii 0x04 0x4A = usb_keycode_to_ascii 0x04 0x02.
Proof.
  destruct (X3_alt_and_gui_bits_are_ignored 0x04 0x02) as (_ & _ & H).
  apply (H 0x4A). reflexivity.
Defined.

(** X6: within one table the byte tells the key.  Two keycodes of the range
    [0x04, 0x38] that translate to the same byte without modifiers, or to the
    same byte with Shift, are the same keycode, except for the pair 0x2C
    (Space) and 0x32, which both give a space. *)
Theorem X6_tables_are_injective_up_to_space (k k' : Z) :
  0x04 <= k <= 0x38 -> 0x04 <= k' <= 0x38 ->
  usb_keycode_to_ascii k 0 = usb_keycode_to_ascii k' 0 \/
  usb_keycode_to_ascii k 0x02 = usb_keycode_to_ascii k' 0x02 ->
  k = k' \/ (k = 0x2C /\ k' = 0x32) \/ (k = 0x32 /\ k' = 0x2C).
Proof.
  intros Hk Hk' Heq.
  pose (g := fun k k' : Z =>
               implb ((usb_keycode_to_ascii k 0 =? usb_keycode_to_ascii k' 0)
                      || (usb_keycode_to_ascii k 0x02 =?
                          usb_keycode_to_ascii k' 0x02))
                     ((k =? k')
                      || ((k =? 0x2C) && (k' =? 0x32))
                      || ((k =? 0x32) && (k' =? 0x2C)))).
  pose (f := fun k : Z =>
               forallb (g k) (map (fun i => 0x04 + Z.of_nat i) (seq 0 53))).
  assert (Hf : f k = true).
  { apply (Z_range_forallb f 0x04 53); [vm_compute; reflexivity | lia]. }
  assert (Hg : g k k' = true).
  { apply (Z_range_forallb (g k) 0x04 53); [exact Hf | lia]. }
  subst g. cbv beta in Hg.
  assert (Hpre : (usb_keycode_to_ascii k 0 =? usb_keycode_to_ascii k' 0)
                 || (usb_keycode_to_ascii k 0x02 =?
                     usb_keycode_to_ascii k' 0x02) = true).
  { apply orb_true_iff.
    destruct Heq as [E | E]; [left | right]; now apply Z.eqb_eq. }
  rewrite Hpre in Hg. cbn [implb] in Hg.
  apply orb_true_iff in Hg. destruct Hg as [Hg | Hg].
  - apply orb_true_iff in Hg. destruct Hg as [Hg | Hg].
    + left. now apply Z.eqb_eq.
    + apply andb_true_iff in Hg. destruct Hg as [A B].
      apply Z.eqb_eq in A, B. right; left. now split.
  - apply andb_true_iff in Hg. destruct Hg as [A B].
    apply Z.eqb_eq in A, B. right; right. now split.
Qed.

Lemma X6_tables_are_injective_up_to_space_witness :
  0x2C = 0x32 \/ (0x2C = 0x2C /\ 0x32 = 0x32) \/ (0x2C = 0x32 /\ 0x32 = 0x2C).
Proof.
  apply (X6_tables_are_injective_up_to_space 0x2C 0x32); [lia | lia |].
  left. reflexivity.
Defined.

(** ** The scheduler over many iterations *)

Lemma main_task_succ (n : nat) (s : Main.state) :
  Main.uart_repeat_send_task (S n) s =
    (fst (Main.uart_repeat_send_task n (fst (Main.loop_body s))),
     snd (Main.loop_body s)
     :: snd (Main.uart_repeat_send_task n (fst (Main.loop_body s)))).
Proof.
  unfold Main.uart_repeat_send_task. cbn [repeat Main.run Main.step].
  destruct (Main.loop_body s) as [s1 o]. cbn [fst snd].
  now destruct (Main.run s1 (repeat Tick n)).
Qed.

Lemma part000_task_succ (n : nat) (s : Part000.state) :
  Part000.uart_repeat_send_task (S n) s =
    (fst (Part000.uart_repeat_send_task n (fst (Part000.loop_body s))),
     snd (Part000.loop_body s)
     :: snd (Part000.uart_repeat_send_task n (fst (Part000.loop_body s)))).
Proof.
  unfold Part000.uart_repeat_send_task.
  cbn [repeat Part000.run Part000.step].
  destruct (Part000.loop_body s) as [s1 o]. cbn [fst snd].
  now destruct (Part000.run s1 (repeat Tick n)).
Qed.

(** The scheduler writes neither [current_key] nor [current_mod] (nor, in
    [keyboard_main.c], the callback's [last_key]). *)
Lemma main_loop_body_key_state (s : Main.state) :
  Main.current_key (fst (Main.loop_body s)) = Main.current_key s /\
  Main.current_mod (fst (Main.loop_body s)) = Main.current_mod s /\
  Main.last_key (fst (Main.loop_body s)) = Main.last_key s.
Proof.
  unfold Main.loop_body. destruct (negb _); cbn; auto.
Qed.

Lemma part000_loop_body_key_state (s : Part000.state) :
  Part000.current_key (fst (Part000.loop_body s)) = Part000.current_key s /\
  Part000.current_mod (fst (Part000.loop_body s)) = Part000.current_mod s /\
  Part000.prev_key (fst (Part000.loop_body s)) = Part000.current_key s.
Proof.
  destruct (Z.eq_dec (Part000.current_key s) 0) as [E | E].
  - rewrite part000_loop_body_idle by assumption. cbn. auto.
  - rewrite part000_loop_body_holding by assumption. cbn. auto.
Qed.

Lemma main_silent_tick (s : Main.state) :
  usb_keycode_to_ascii (Main.current_key s) (Main.current_mod s) = 0 ->
  snd (Main.loop_body s) = None.
Proof.
  intros H. unfold Main.loop_body. rewrite H.
  destruct (negb _); [|reflexivity]. cbn. now destruct (_ =? 0).
Qed.

Lemma part000_silent_tick (s : Part000.state) :
  usb_keycode_to_ascii (Part000.current_key s) (Part000.current_mod s) = 0 ->
  snd (Part000.loop_body s) = None.
Proof.
  intros H. destruct (Z.eq_dec (Part000.current_key s) 0) as [E | E].
  - now rewrite part000_loop_body_idle.
  - rewrite part000_loop_body_holding by assumption. cbn [snd]. rewrite H.
    now destruct (_ =? 0).
Qed.

Lemma main_silent_task (n : nat) :
  forall s,
    usb_keycode_to_ascii (Main.current_key s) (Main.current_mod s) = 0 ->
    snd (Main.uart_repeat_send_task n s) = repeat None n.
Proof.
  induction n as [| n IH]; intros s H; [reflexivity|].
  rewrite main_task_succ. cbn [snd repeat].
  destruct (main_loop_body_key_state s) as (Hk & Hm & _).
  rewrite main_silent_tick by assumption. f_equal.
  apply IH. now rewrite Hk, Hm.
Qed.

Lemma part000_silent_task (n : nat) :
  forall s,
    usb_keycode_to_ascii (Part000.current_key s) (Part000.current_mod s) = 0 ->
    snd (Part000.uart_repeat_send_task n s) = repeat None n.
Proof.
  induction n as [| n IH]; intros s H; [reflexivity|].
  rewrite part000_task_succ. cbn [snd repeat].
  destruct (part000_loop_body_key_state s) as (Hk & Hm & _).
  rewrite part000_silent_tick by assumption. f_equal.
  apply IH. now rewrite Hk, Hm.
Qed.

Lemma main_idle_task (n : nat) (s : Main.state) :
  Main.current_key s = 0 -> fst (Main.uart_repeat_send_task n s) = s.
Proof.
  intros H. induction n as [| n IH]; [reflexivity|].
  rewrite main_task_succ. cbn [fst].
  now rewrite main_loop_body_idle by assumption.
Qed.

Lemma part000_idle_task (n : nat) :
  forall s,
    Part000.current_key s = 0 ->
    fst (Part000.uart_repeat_send_task (S n) s) =
      Part000.mkState 0 0 (Part000.current_mod s) 0.
Proof.
  induction n as [| n IH]; intros s H.
  - rewrite part000_task_succ. cbn [fst].
    now rewrite part000_loop_body_idle by assumption.
  - rewrite part000_task_succ. cbn [fst].
    rewrite part000_loop_body_idle by assumption. cbn [fst].
    now rewrite IH by reflexivity.
Qed.

(** X7: release.  Once a report of at least 3 bytes with key byte 0 has been
    stored, the scheduler writes nothing, however many iterations it runs,
    until another report arrives; [keyboard_main.c] leaves its whole state as
    the callback left it, [part_000] holds its counter and [prev_key] at 0. *)
Theorem X7_release_silences_the_scheduler
    (report : list Z) (report_len : Z) (n : nat)
    (m : Main.state) (p : Part000.state) :
  3 <= report_len -> nth_error report 2 = Some 0 ->
  let m' := Main.hid_host_keyboard_report_callback report report_len m in
  let p' := Part000.hid_host_keyboard_report_callback report report_len p in
  Main.uart_repeat_send_task n m' = (m', repeat None n) /\
  snd (Part000.uart_repeat_send_task n p') = repeat None n /\
  fst (Part000.uart_repeat_send_task (S n) p') =
    Part000.mkState 0 0 (Part000.current_mod p') 0.
Proof.
  intros Hlen H2 m' p'. apply nth_of_nth_error in H2.
  assert (Hm : Main.current_key m' = 0).
  { subst m'. rewrite main_callback_long by assumption. exact H2. }
  assert (Hp : Part000.current_key p' = 0).
  { subst p'. rewrite part000_callback_long by assumption. exact H2. }
  split; [|split].
  - rewrite (surjective_pairing (Main.uart_repeat_send_task n m')).
    rewrite main_idle_task by assumption.
    rewrite main_silent_task; [reflexivity | now rewrite Hm].
  - apply part000_silent_task. now rewrite Hp.
  - now apply part000_idle_task.
Qed.

Lemma X7_release_silences_the_scheduler_witness :
  snd (Part000.uart_repeat_send_task 120
         (Part000.hid_host_keyboard_report_callback (boot_report 0x02 0) 8
            (Part000.mkState 17 0x04 0 0x04))) = repeat None 120.
Proof.
  destruct (X7_release_silences_the_scheduler (boot_report 0x02 0) 8 120
              Main.init (Part000.mkState 17 0x04 0 0x04)
              ltac:(lia) eq_refl) as (_ & H & _).
  exact H.
Defined.

(** X8: a held key outside [0x04, 0x38] (a function key, an arrow, the error
    codes 0x01 to 0x03) never makes the scheduler write anything, whatever the
    modifiers, the phase and the number of iterations. *)
Theorem X8_unmapped_key_is_never_sent
    (n : nat) (m : Main.state) (p : Part000.state) :
  (Main.current_key m < 0x04 \/ Main.current_key m > 0x38 ->
   snd (Main.uart_repeat_send_task n m) = repeat None n) /\
  (Part000.current_key p < 0x04 \/ Part000.current_key p > 0x38 ->
   snd (Part000.uart_repeat_send_task n p) = repeat None n).
Proof.
  split; intros H.
  - apply main_silent_task. now apply usb_keycode_to_ascii_zero.
  - apply part000_silent_task. now apply usb_keycode_to_ascii_zero.
Qed.

Lemma X8_unmapped_key_is_never_sent_witness :
  snd (Main.uart_repeat_send_task 100 (Main.mkState 0 0x3A 0x02 0x3A)) =
    repeat None 100.
Proof.
  destruct (X8_unmapped_key_is_never_sent 100
              (Main.mkState 0 0x3A 0x02 0x3A) Part000.init) as [H _].
  apply H. right. simpl. lia.
Defined.

Lemma repeat_pattern_succ (t0 : Z) (byte : option Z) (n : nat) :
  0 <= t0 < TICK_COUNT_MAX ->
  repeat_pattern t0 byte (S n) =
    (if t0 =? 0 then byte else None) :: repeat_pattern (advance t0) byte n.
Proof.
  intros Ht. unfold repeat_pattern. cbn [seq map].
  rewrite Z.add_0_r, (Z.mod_small t0) by assumption. f_equal.
  rewrite <- seq_shift, map_map. apply map_ext. intros i.
  rewrite advance_mod by assumption.
  rewrite Zplus_mod_idemp_l.
  now replace (t0 + 1 + Z.of_nat i) with (t0 + Z.of_nat (S i)) by lia.
Qed.

Lemma advance_iter (t0 : Z) (n : nat) :
  0 <= t0 < TICK_COUNT_MAX ->
  (advance t0 + Z.of_nat n) mod TICK_COUNT_MAX =
  (t0 + Z.of_nat (S n)) mod TICK_COUNT_MAX.
Proof.
  intros Ht. rewrite advance_mod by assumption.
  rewrite Zplus_mod_idemp_l. f_equal. lia.
Qed.

Lemma main_fixed_rate (n : nat) :
  forall s,
    Main.current_key s <> 0 ->
    0 <= Main.tick_counter s < TICK_COUNT_MAX ->
    Main.uart_repeat_send_task n s =
      (Main.set_tick_counter
         ((Main.tick_counter s + Z.of_nat n) mod TICK_COUNT_MAX) s,
       repeat_pattern (Main.tick_counter s)
         (sent_byte
            (usb_keycode_to_ascii (Main.current_key s) (Main.current_mod s)))
         n).
Proof.
  induction n as [| n IH]; intros s Hk Ht.
  - cbn [Z.of_nat]. rewrite Z.add_0_r, Z.mod_small by assumption.
    now destruct s.
  - rewrite main_task_succ, repeat_pattern_succ by assumption.
    rewrite main_loop_body_holding by assumption. cbn [fst snd].
    rewrite IH; [|exact Hk | apply advance_range].
    cbn [fst snd Main.set_tick_counter Main.tick_counter Main.current_key
         Main.current_mod Main.last_key].
    now rewrite advance_iter by assumption.
Qed.

Lemma part000_fixed_rate (n : nat) :
  forall s,
    Part000.current_key s <> 0 ->
    let t0 := Part000.tick_counter
                (Part000.phase_reset (Part000.current_key s) s) in
    0 <= t0 < TICK_COUNT_MAX ->
    Part000.uart_repeat_send_task (S n) s =
      (Part000.mkState ((t0 + Z.of_nat (S n)) mod TICK_COUNT_MAX)
                       (Part000.current_key s) (Part000.current_mod s)
                       (Part000.current_key s),
       repeat_pattern t0
         (sent_byte
            (usb_keycode_to_ascii (Part000.current_key s)
                                  (Part000.current_mod s)))
         (S n)).
Proof.
  induction n as [| n IH]; intros s Hk t0 Ht.
  - rewrite part000_task_succ, repeat_pattern_succ by assumption.
    rewrite part000_loop_body_holding by assumption. fold t0.
    cbn [fst snd]. unfold Part000.uart_repeat_send_task. cbn [repeat].
    cbn [Part000.run fst snd]. unfold repeat_pattern. cbn [seq map].
    now rewrite advance_mod by assumption.
  - rewrite part000_task_succ.
    rewrite (repeat_pattern_succ t0 _ (S n)) by assumption.
    rewrite part000_loop_body_holding by assumption. fold t0.
    cbn [fst snd].
    rewrite IH; cbn [Part000.current_key Part000.current_mod]; try assumption.
    + rewrite part000_phase_reset_counter.
      cbn [Part000.prev_key Part000.tick_counter]. rewrite Z.eqb_refl.
      now rewrite (advance_iter t0 (S n)) by assumption.
    + rewrite part000_phase_reset_counter.
      cbn [Part000.prev_key Part000.tick_counter]. rewrite Z.eqb_refl.
      apply advance_range.
Qed.

(** X9: auto-repeat at a fixed rate.  With a key held and no report coming
    in, [n] iterations started at phase [t0] write the key's byte exactly at
    the iterations [i] with [(t0 + i) mod TICK_COUNT_MAX = 0] and nothing at
    the others, and leave the phase at [(t0 + n) mod TICK_COUNT_MAX].  In
    [keyboard_main.c] [t0] is the counter; in [part_000] it is the counter
    after the key-change reset of the first iteration. *)
Theorem X9_fixed_rate_repeat (n : nat) (m : Main.state) (p : Part000.state) :
  Main.current_key m <> 0 ->
  0 <= Main.tick_counter m < TICK_COUNT_MAX ->
  Part000.current_key p <> 0 ->
  0 <= Part000.tick_counter p < TICK_COUNT_MAX ->
  let t0 := Part000.tick_counter
              (Part000.phase_reset (Part000.current_key p) p) in
  Main.uart_repeat_send_task n m =
    (Main.set_tick_counter
       ((Main.tick_counter m + Z.of_nat n) mod TICK_COUNT_MAX) m,
     repeat_pattern (Main.tick_counter m)
       (sent_byte
          (usb_keycode_to_ascii (Main.current_key m) (Main.current_mod m)))
       n) /\
  snd (Part000.uart_repeat_send_task n p) =
    repeat_pattern t0
      (sent_byte
         (usb_keycode_to_ascii (Part000.current_key p)
                               (Part000.current_mod p)))
      n /\
  Part000.tick_counter (fst (Part000.uart_repeat_send_task (S n) p)) =
    (t0 + Z.of_nat (S n)) mod TICK_COUNT_MAX.
Proof.
  intros Hmk Hmt Hpk Hpt t0.
  assert (Ht0 : 0 <= t0 < TICK_COUNT_MAX).
  { subst t0. rewrite part000_phase_reset_counter.
    destruct (_ =? _); [assumption | rewrite TICK_COUNT_MAX_value; lia]. }
  split; [now apply main_fixed_rate|]. split.
  - destruct n as [| n]; [reflexivity|].
    now rewrite part000_fixed_rate.
  - now rewrite part000_fixed_rate.
Qed.

Lemma X9_fixed_rate_repeat_witness :
  snd (Main.uart_repeat_send_task 130 (Main.mkState 30 0x04 0 0x04)) =
    repeat_pattern 30 (Some (code "a")) 130 /\
  snd (Part000.uart_repeat_send_task 130 (Part000.mkState 30 0x05 0x02 0x04))
    = repeat_pattern 0 (Some (code "B")) 130.
Proof.
  destruct (X9_fixed_rate_repeat 130 (Main.mkState 30 0x04 0 0x04)
              (Part000.mkState 30 0x05 0x02 0x04)
              ltac:(cbn; lia)
              ltac:(rewrite TICK_COUNT_MAX_value; cbn; lia)
              ltac:(cbn; lia)
              ltac:(rewrite TICK_COUNT_MAX_value; cbn; lia))
    as (Hm & Hp & _).
  split; [rewrite Hm; reflexivity | exact Hp].
Defined.

(** ** Runs of reports and ticks *)

Lemma main_run_cons (s : Main.state) (e : event) (evs : list event) :
  Main.run s (e :: evs) =
    (fst (Main.run (fst (Main.step s e)) evs),
     snd (Main.step s e) ++ snd (Main.run (fst (Main.step s e)) evs)).
Proof.
  cbn [Main.run]. destruct (Main.step s e) as [s1 o1]. cbn [fst snd].
  now destruct (Main.run s1 evs).
Qed.

Lemma part000_run_cons (s : Part000.state) (e : event) (evs : list event) :
  Part000.run s (e :: evs) =
    (fst (Part000.run (fst (Part000.step s e)) evs),
     snd (Part000.step s e) ++ snd (Part000.run (fst (Part000.step s e)) evs)).
Proof.
  cbn [Part000.run]. destruct (Part000.step s e) as [s1 o1]. cbn [fst snd].
  now destruct (Part000.run s1 evs).
Qed.

Lemma main_tick_output_ascii (s : Main.state) :
  ascii_byte (snd (Main.loop_body s)).
Proof.
  destruct (snd (Main.loop_body s)) as [b|] eqn:E; [|exact I].
  apply main_emits_iff in E. destruct E as (_ & _ & Hne & ->).
  pose proof (usb_keycode_to_ascii_range (Main.current_key s)
                (Main.current_mod s)).
  cbn. lia.
Qed.

Lemma part000_tick_output_ascii (s : Part000.state) :
  ascii_byte (snd (Part000.loop_body s)).
Proof.
  destruct (snd (Part000.loop_body s)) as [b|] eqn:E; [|exact I].
  apply part000_emits_iff in E. destruct E as (_ & _ & Hne & ->).
  pose proof (usb_keycode_to_ascii_range (Part000.current_key s)
                (Part000.current_mod s)).
  cbn. lia.
Qed.

(** X10: whatever the starting state (reachable or not) and whatever the
    reports and ticks that follow, every byte either variant writes to the
    UART lies between 1 and 127: the stream holds no NUL and no byte with the
    top bit set. *)
Theorem X10_uart_stream_is_nonzero_ascii
    (evs : list event) (m : Main.state) (p : Part000.state) :
  Forall ascii_byte (snd (Main.run m evs)) /\
  Forall ascii_byte (snd (Part000.run p evs)).
Proof.
  split.
  - revert m. induction evs as [| e evs IH]; intros m; [constructor|].
    rewrite main_run_cons. cbn [snd]. apply Forall_app. split; [|apply IH].
    destruct e as [report report_len|]; cbn [Main.step snd]; [constructor|].
    pose proof (main_tick_output_ascii m) as H.
    destruct (Main.loop_body m) as [m1 o]. cbn [snd] in *.
    constructor; [exact H | constructor].
  - revert p. induction evs as [| e evs IH]; intros p; [constructor|].
    rewrite part000_run_cons. cbn [snd]. apply Forall_app. split; [|apply IH].
    destruct e as [report report_len|]; cbn [Part000.step snd]; [constructor|].
    pose proof (part000_tick_output_ascii p) as H.
    destruct (Part000.loop_body p) as [p1 o]. cbn [snd] in *.
    constructor; [exact H | constructor].
Qed.

Lemma main_step_key_state (a b : Main.state) (e : event) :
  Main.current_key a = Main.current_key b ->
  Main.current_mod a = Main.current_mod b ->
  Main.last_key a = Main.last_key b ->
  Main.current_key (fst (Main.step a e)) =
    Main.current_key (fst (Main.step b e)) /\
  Main.current_mod (fst (Main.step a e)) =
    Main.current_mod (fst (Main.step b e)) /\
  Main.last_key (fst (Main.step a e)) = Main.last_key (fst (Main.step b e)).
Proof.
  intros Hk Hm Hl. destruct e as [report report_len|].
  - cbn [Main.step fst]. destruct (Z.ltb_spec report_len 3) as [H | H].
    + now rewrite !main_callback_short by assumption.
    + rewrite !main_callback_long by assumption. cbn. auto.
  - cbn [Main.step].
    destruct (main_loop_body_key_state a) as (A1 & A2 & A3).
    destruct (main_loop_body_key_state b) as (B1 & B2 & B3).
    destruct (Main.loop_body a), (Main.loop_body b). cbn [fst] in *.
    repeat split; congruence.
Qed.

Lemma part000_step_key_state (a b : Part000.state) (e : event) :
  Part000.current_key a = Part000.current_key b ->
  Part000.current_mod a = Part000.current_mod b ->
  Part000.current_key (fst (Part000.step a e)) =
    Part000.current_key (fst (Part000.step b e)) /\
  Part000.current_mod (fst (Part000.step a e)) =
    Part000.current_mod (fst (Part000.step b e)).
Proof.
  intros Hk Hm. destruct e as [report report_len|].
  - cbn [Part000.step fst]. destruct (Z.ltb_spec report_len 3) as [H | H].
    + now rewrite !part000_callback_short by assumption.
    + rewrite !part000_callback_long by assumption. cbn. auto.
  - cbn [Part000.step].
    destruct (part000_loop_body_key_state a) as (A1 & A2 & _).
    destruct (part000_loop_body_key_state b) as (B1 & B2 & _).
    destruct (Part000.loop_body a), (Part000.loop_body b). cbn [fst] in *.
    split; congruence.
Qed.

Lemma main_run_key_state (evs : list event) :
  forall a b,
    Main.current_key a = Main.current_key b ->
    Main.current_mod a = Main.current_mod b ->
    Main.last_key a = Main.last_key b ->
    Main.current_key (fst (Main.run a evs)) =
      Main.current_key (fst (Main.run b (reports_only evs))) /\
    Main.current_mod (fst (Main.run a evs)) =
      Main.current_mod (fst (Main.run b (reports_only evs))) /\
    Main.last_key (fst (Main.run a evs)) =
      Main.last_key (fst (Main.run b (reports_only evs))).
Proof.
  induction evs as [| e evs IH]; intros a b Hk Hm Hl; [cbn; auto|].
  rewrite main_run_cons. cbn [fst].
  destruct e as [report report_len|]; cbn [reports_only filter].
  - fold (reports_only evs). rewrite main_run_cons. cbn [fst].
    destruct (main_step_key_state a b (Report report report_len) Hk Hm Hl)
      as (H1 & H2 & H3).
    now apply IH.
  - fold (reports_only evs). cbn [Main.step].
    destruct (main_loop_body_key_state a) as (A1 & A2 & A3).
    destruct (Main.loop_body a) as [a1 o]. cbn [fst] in *.
    apply IH; congruence.
Qed.

Lemma part000_run_key_state (evs : list event) :
  forall a b,
    Part000.current_key a = Part000.current_key b ->
    Part000.current_mod a = Part000.current_mod b ->
    Part000.current_key (fst (Part000.run a evs)) =
      Part000.current_key (fst (Part000.run b (reports_only evs))) /\
    Part000.current_mod (fst (Part000.run a evs)) =
      Part000.current_mod (fst (Part000.run b (reports_only evs))).
Proof.
  induction evs as [| e evs IH]; intros a b Hk Hm; [cbn; auto|].
  rewrite part000_run_cons. cbn [fst].
  destruct e as [report report_len|]; cbn [reports_only filter].
  - fold (reports_only evs). rewrite part000_run_cons. cbn [fst].
    destruct (part000_step_key_state a b (Report report report_len) Hk Hm)
      as (H1 & H2).
    now apply IH.
  - fold (reports_only evs). cbn [Part000.step].
    destruct (part000_loop_body_key_state a) as (A1 & A2 & _).
    destruct (Part000.loop_body a) as [a1 o]. cbn [fst] in *.
    apply IH; congruence.
Qed.

(** X11: the scheduler never writes the key state.  After any run, the held
    key and the modifiers (and the callback's [last_key] in
    [keyboard_main.c]) are what the reports of the run alone would have left:
    dropping every tick from the run does not change them, and they do not
    depend on the phase counter the run started with. *)
Theorem X11_key_state_comes_from_reports_alone
    (evs : list event) (m : Main.state) (p : Part000.state) (t : Z) :
  (Main.current_key (fst (Main.run m evs)) =
     Main.current_key (fst (Main.run (Main.set_tick_counter t m)
                              (reports_only evs))) /\
   Main.current_mod (fst (Main.run m evs)) =
     Main.current_mod (fst (Main.run (Main.set_tick_counter t m)
                              (reports_only evs))) /\
   Main.last_key (fst (Main.run m evs)) =
     Main.last_key (fst (Main.run (Main.set_tick_counter t m)
                           (reports_only evs)))) /\
  (Part000.current_key (fst (Part000.run p evs)) =
     Part000.current_key (fst (Part000.run (Part000.set_tick_counter t p)
                                 (reports_only evs))) /\
   Part000.current_mod (fst (Part000.run p evs)) =
     Part000.current_mod (fst (Part000.run (Part000.set_tick_counter t p)
                                 (reports_only evs)))).
Proof.
  split.
  - apply main_run_key_state; reflexivity.
  - apply part000_run_key_state; reflexivity.
Qed.

(** ** Reports that repeat or follow one another *)

(** X12: a report that keeps the held key and changes only the modifiers does
    not restart the phase.  In [keyboard_main.c] (any reachable state) the
    callback leaves the counter alone, in [part_000] (with [prev_key] up to
    date) the next iteration does not reset it; that iteration advances the
    counter as usual and, if it is an emitting one, already translates the key
    with the new modifiers. *)
Theorem X12_modifier_change_keeps_the_phase
    (report : list Z) (report_len md k : Z)
    (m : Main.state) (p : Part000.state) :
  Main.reachable m ->
  Part000.prev_key p = Part000.current_key p ->
  3 <= report_len ->
  nth_error report 0 = Some md -> nth_error report 2 = Some k ->
  k <> 0 -> Main.current_key m = k -> Part000.current_key p = k ->
  let m' := Main.hid_host_keyboard_report_callback report report_len m in
  let p' := Part000.hid_host_keyboard_report_callback report report_len p in
  Main.tick_counter m' = Main.tick_counter m /\
  Main.loop_body m' =
    (Main.mkState (advance (Main.tick_counter m)) k md k,
     if Main.tick_counter m =? 0
     then sent_byte (usb_keycode_to_ascii k md) else None) /\
  Part000.loop_body p' =
    (Part000.mkState (advance (Part000.tick_counter p)) k md k,
     if Part000.tick_counter p =? 0
     then sent_byte (usb_keycode_to_ascii k md) else None).
Proof.
  intros Hm Hprev Hlen H0 H2 Hk Hmk Hpk m' p'.
  destruct (main_reachable_inv m Hm) as (Hlast & _ & _).
  apply nth_of_nth_error in H0, H2.
  assert (Em : m' = Main.mkState (Main.tick_counter m) k md k).
  { subst m'. rewrite main_callback_long by assumption.
    now rewrite H0, H2, Hlast, Hmk, Z.eqb_refl. }
  assert (Ep : p' = Part000.mkState (Part000.tick_counter p) k md k).
  { subst p'. rewrite part000_callback_long by assumption.
    now rewrite H0, H2, Hprev, Hpk. }
  rewrite Em, Ep. split; [reflexivity|]. split.
  - now rewrite main_loop_body_holding by (cbn; assumption).
  - rewrite part000_loop_body_holding by (cbn; assumption).
    rewrite part000_phase_reset_counter. cbn. now rewrite Z.eqb_refl.
Qed.

Lemma X12_modifier_change_keeps_the_phase_witness :
  Main.loop_body
    (Main.hid_host_keyboard_report_callback (boot_report 0x02 0x04) 8
       (Main.mkState 0 0x04 0 0x04)) =
    (Main.mkState 1 0x04 0x02 0x04, Some (code "A")).
Proof.
  assert (Hm : Main.reachable (Main.mkState 0 0x04 0 0x04)).
  { exact (Main.reachable_step _ (Report (boot_report 0 0x04) 8)
             Main.reachable_init). }
  destruct (X12_modifier_change_keeps_the_phase (boot_report 0x02 0x04) 8
              0x02 0x04 (Main.mkState 0 0x04 0 0x04)
              (Part000.mkState 0 0x04 0 0x04)
              Hm eq_refl ltac:(lia) eq_refl eq_refl ltac:(lia)
              eq_refl eq_refl) as (_ & H & _).
  exact H.
Defined.

(** X13: reports overwrite.  Delivering the same report twice in a row leaves
    exactly the state that delivering it once leaves, in both variants.  When
    two different reports follow one another without a tick in between and
    the second has at least 3 bytes, [part_000] ends in exactly the state the
    second report alone would give; [keyboard_main.c] ends with the key state
    of the second report alone. *)
Theorem X13_reports_overwrite
    (r1 r2 : list Z) (len1 len2 : Z) (m : Main.state) (p : Part000.state) :
  Main.hid_host_keyboard_report_callback r1 len1
    (Main.hid_host_keyboard_report_callback r1 len1 m) =
    Main.hid_host_keyboard_report_callback r1 len1 m /\
  Part000.hid_host_keyboard_report_callback r1 len1
    (Part000.hid_host_keyboard_report_callback r1 len1 p) =
    Part000.hid_host_keyboard_report_callback r1 len1 p /\
  (3 <= len2 ->
   Part000.hid_host_keyboard_report_callback r2 len2
     (Part000.hid_host_keyboard_report_callback r1 len1 p) =
     Part000.hid_host_keyboard_report_callback r2 len2 p) /\
  (3 <= len2 ->
   let m12 := Main.hid_host_keyboard_report_callback r2 len2
                (Main.hid_host_keyboard_report_callback r1 len1 m) in
   let m2 := Main.hid_host_keyboard_report_callback r2 len2 m in
   Main.current_key m12 = Main.current_key m2 /\
   Main.current_mod m12 = Main.current_mod m2 /\
   Main.last_key m12 = Main.last_key m2).
Proof.
  split; [|split; [|split]].
  - destruct (Z.ltb_spec len1 3) as [H | H].
    + now rewrite !main_callback_short by assumption.
    + rewrite !main_callback_long by assumption. cbn.
      now rewrite Z.eqb_refl.
  - destruct (Z.ltb_spec len1 3) as [H | H].
    + now rewrite !part000_callback_short by assumption.
    + now rewrite !part000_callback_long by assumption.
  - intros H2. destruct (Z.ltb_spec len1 3) as [H | H].
    + now rewrite (part000_callback_short r1) by assumption.
    + now rewrite !part000_callback_long by assumption.
  - intros H2 m12 m2. subst m12 m2.
    now rewrite !(main_callback_long r2) by assumption.
Qed.

Lemma X13_reports_overwrite_witness :
  Part000.hid_host_keyboard_report_callback (boot_report 0 0x05) 8
    (Part000.hid_host_keyboard_report_callback (boot_report 0x02 0x04) 8
       (Part000.mkState 9 0x06 0 0x06)) =
  Part000.hid_host_keyboard_report_callback (boot_report 0 0x05) 8
    (Part000.mkState 9 0x06 0 0x06).
Proof.
  destruct (X13_reports_overwrite (boot_report 0x02 0x04) (boot_report 0 0x05)
              8 8 Main.init (Part000.mkState 9 0x06 0 0x06))
    as (_ & _ & H & _).
  apply H. lia.
Defined.

(** ** The interface callback of [part_000] *)

(** X14: [hid_host_interface_callback] of [part_000] changes something only
    for an input-report event whose read succeeded with at least 3 bytes: any
    other event, a failed read and a short read leave the whole state as it
    was.  When it does change the state, it stores bytes 0 and 2 of the
    buffer and leaves the phase counter and [prev_key] alone. *)
Theorem X14_interface_callback_guards
    (INPUT_REPORT ESP_OK event err : Z) (report : list Z)
    (report_read_len : Z) (s : Part000.state) :
  let s' := Part000Glue.hid_host_interface_callback INPUT_REPORT ESP_OK
              event err report report_read_len s in
  (event <> INPUT_REPORT \/ err <> ESP_OK \/ report_read_len < 3 -> s' = s) /\
  (event = INPUT_REPORT -> err = ESP_OK -> 3 <= report_read_len ->
   s' = Part000.mkState (Part000.tick_counter s) (nth 2 report 0)
                        (nth 0 report 0) (Part000.prev_key s)) /\
  Part000.tick_counter s' = Part000.tick_counter s /\
  Part000.prev_key s' = Part000.prev_key s.
Proof.
  intros s'. subst s'. unfold Part000Glue.hid_host_interface_callback.
  destruct (Z.eqb_spec event INPUT_REPORT) as [Ee | Ee];
    destruct (Z.eqb_spec err ESP_OK) as [Er | Er];
    try (repeat split; try reflexivity; intros; try contradiction;
         easy).
  destruct (Z.ltb_spec report_read_len 3) as [H | H].
  - rewrite part000_callback_short by assumption.
    repeat split; try reflexivity; intros; lia.
  - rewrite part000_callback_long by assumption.
    repeat split; try reflexivity.
    intros [A | [A | A]]; [contradiction | contradiction | lia].
Qed.

Lemma X14_interface_callback_guards_witness :
  Part000Glue.hid_host_interface_callback 1 0 1 (-1) (boot_report 0 0x05) 8
    (Part000.mkState 3 0x04 0 0x04) = Part000.mkState 3 0x04 0 0x04.
Proof.
  destruct (X14_interface_callback_guards 1 0 1 (-1) (boot_report 0 0x05) 8
              (Part000.mkState 3 0x04 0 0x04)) as (H & _).
  apply H. right. left. lia.
Defined.

(** ** What holds under every interleaving *)

Lemma key_of_a_report_more (reports : list (list Z)) (r : list Z) (k : Z) :
  key_of_a_report reports k -> key_of_a_report (r :: reports) k.
Proof.
  intros [H | (r' & Hin & H)]; [now left | right].
  exists r'. split; [now right | assumption].
Qed.

Lemma mod_of_a_report_more (reports : list (list Z)) (r : list Z) (md : Z) :
  mod_of_a_report reports md -> mod_of_a_report (r :: reports) md.
Proof.
  intros [H | (r' & Hin & H)]; [now left | right].
  exists r'. split; [now right | assumption].
Qed.

Lemma well_sourced_exec (c : Interleaving.config) (a : Interleaving.action) :
  well_sourced c -> well_sourced (Interleaving.exec c a).
Proof.
  intros (Hk & Hm & Hcb & Hsch & Hobs). destruct a as [report report_len| |].
  - cbn [Interleaving.exec].
    destruct (Interleaving.callback c) eqn:Ecb;
      try (unfold well_sourced; rewrite Ecb; now auto).
    destruct (report_len <? 3);
      [unfold well_sourced; rewrite Ecb; now auto|].
    unfold well_sourced. cbn.
    split; [now apply key_of_a_report_more|].
    split; [now apply mod_of_a_report_more|].
    split; [now left|]. split.
    + destruct (Interleaving.scheduler c); [exact I|].
      now apply key_of_a_report_more.
    + eapply Forall_impl; [|exact Hobs]. intros pair [A B].
      split; [now apply key_of_a_report_more | now apply mod_of_a_report_more].
  - cbn [Interleaving.exec].
    destruct (Interleaving.callback c) as [| r | r] eqn:Ecb.
    + unfold well_sourced. rewrite Ecb. auto.
    + unfold well_sourced. cbn.
      split; [assumption|]. split; [right; now exists r|]. auto.
    + unfold well_sourced. cbn.
      split; [right; now exists r|]. auto.
  - cbn [Interleaving.exec].
    destruct (Interleaving.scheduler c) as [| k] eqn:Esch.
    + unfold well_sourced. cbn. auto.
    + unfold well_sourced. cbn.
      split; [assumption|]. split; [assumption|]. split; [assumption|].
      split; [exact I|]. constructor; [now split | assumption].
Qed.

Lemma well_sourced_run (schedule : list Interleaving.action) :
  forall c, well_sourced c -> well_sourced (Interleaving.run c schedule).
Proof.
  induction schedule as [| a schedule IH]; intros c Hc; [exact Hc|].
  cbn [Interleaving.run fold_left]. apply IH. now apply well_sourced_exec.
Qed.

(** X15: what survives every interleaving of the two tasks.  Whatever the
    schedule of deliveries, callback stores and scheduler loads, the key the
    scheduler loads is 0 or byte 2 of an accepted report and the modifier
    byte it loads is 0 or byte 0 of an accepted report, though not always of
    the same report; the two shared bytes themselves satisfy the same. *)
Theorem X15_each_loaded_byte_comes_from_a_report
    (schedule : list Interleaving.action) :
  let c := Interleaving.run Interleaving.init schedule in
  Forall (fun pair => key_of_a_report (Interleaving.accepted c) (fst pair) /\
                      mod_of_a_report (Interleaving.accepted c) (snd pair))
         (Interleaving.observed c) /\
  key_of_a_report (Interleaving.accepted c) (Interleaving.current_key c) /\
  mod_of_a_report (Interleaving.accepted c) (Interleaving.current_mod c).
Proof.
  intros c.
  assert (H : well_sourced c).
  { apply well_sourced_run. unfold well_sourced. cbn.
    repeat split; try (now left); constructor. }
  destruct H as (Hk & Hm & _ & _ & Hobs). auto.
Qed.
